(** * NBA star-rating predictor: the scoring engine of [app.py]

    The engine has two parts: [StarRating.calculate], a closed-form blend of
    a probability with four signals, and [simulate_game], which computes the
    weighted expected scores, three sampled over-probabilities, their fusion
    and the rating.

    Modelling conventions.
    - A Python/NumPy float is a real number or one of the IEEE special
      values [+inf], [-inf], [nan] (type [float64]).  Finite arithmetic is
      exact: binary64 rounding error and signed zeros are not modelled.
      The one operation of the engine whose overflow is an exception, the
      power of a builtin float, overflows above [DBL_MAX].
    - Exceptions are the [Raise] branch of [result].
    - The random generators are an explicit [RandomSource]: every sampling
      call site of [simulate_game] reads its own stream of variates.  The
      count samplers return 64-bit integers, and sums of such arrays wrap
      around. *)

From Stdlib Require Import Reals Lra Lia List ZArith String Bool.
Import ListNotations.
Open Scope R_scope.

(** ** Exceptions *)

Inductive exn : Type :=
| TypeError
| ZeroDivisionError
| ValueError
| OverflowError.

Inductive result (A : Type) : Type :=
| Ok (a : A)
| Raise (e : exn).

Arguments Ok {A} a.
Arguments Raise {A} e.

Definition bind {A B : Type} (c : result A) (k : A -> result B) : result B :=
  match c with
  | Ok a => k a
  | Raise e => Raise e
  end.

Notation "x <- c ;; k" := (bind c (fun x => k))
  (at level 61, c at next level, right associativity).

Definition raises {A : Type} (c : result A) : Prop :=
  match c with
  | Ok _ => False
  | Raise _ => True
  end.

(** ** Float values *)

Inductive float64 : Type :=
| Fin (x : R)
| PInf
| NInf
| NaN.

Definition is_finite (v : float64) : Prop :=
  match v with
  | Fin _ => True
  | _ => False
  end.

(** The dynamic type of a float argument: the builtin [float] or
    [numpy.float64].  Inside [calculate] the two differ only on a negative
    base raised to a fractional power. *)
Inductive numkind : Type :=
| PyFloat
| NpFloat64.

Definition fneg (a : float64) : float64 :=
  match a with
  | Fin x => Fin (- x)
  | PInf => NInf
  | NInf => PInf
  | NaN => NaN
  end.

Definition fadd (a b : float64) : float64 :=
  match a, b with
  | NaN, _ | _, NaN => NaN
  | Fin x, Fin y => Fin (x + y)
  | PInf, NInf | NInf, PInf => NaN
  | PInf, _ | _, PInf => PInf
  | NInf, _ | _, NInf => NInf
  end.

Definition fsub (a b : float64) : float64 := fadd a (fneg b).

(** [x * (+inf)] when [pos], [x * (-inf)] otherwise. *)
Definition mul_inf (x : R) (pos : bool) : float64 :=
  if Rlt_dec 0 x then (if pos then PInf else NInf)
  else if Rlt_dec x 0 then (if pos then NInf else PInf)
  else NaN.

Definition fmul (a b : float64) : float64 :=
  match a, b with
  | NaN, _ | _, NaN => NaN
  | Fin x, Fin y => Fin (x * y)
  | Fin x, PInf | PInf, Fin x => mul_inf x true
  | Fin x, NInf | NInf, Fin x => mul_inf x false
  | PInf, PInf | NInf, NInf => PInf
  | PInf, NInf | NInf, PInf => NInf
  end.

(** True division by a finite non-zero literal [d]; [calculate] divides
    only by [20]. *)
Definition fdiv (a : float64) (d : R) : float64 := fmul a (Fin (/ d)).

(** [a < b]; every comparison with [nan] is false. *)
Definition flt (a b : float64) : bool :=
  match a, b with
  | NaN, _ | _, NaN => false
  | Fin x, Fin y => if Rlt_dec x y then true else false
  | NInf, NInf => false
  | NInf, _ => true
  | _, NInf => false
  | PInf, _ => false
  | Fin _, PInf => true
  end.

(** The builtins [min(a, b)] and [max(a, b)]: the first argument is kept
    unless the second compares strictly below (above) it. *)
Definition py_min (a b : float64) : float64 := if flt b a then b else a.
Definition py_max (a b : float64) : float64 := if flt a b then b else a.

(** [numpy.log1p]: [-inf] at [-1] and [nan] below it (with a warning, not
    an exception). *)
Definition log1p (v : float64) : float64 :=
  match v with
  | Fin x =>
      if Rlt_dec (-1) x then Fin (ln (1 + x))
      else if Rlt_dec x (-1) then NaN
      else NInf
  | PInf => PInf
  | NInf => NaN
  | NaN => NaN
  end.

(** The value of an expression that may have left the floats: a negative
    builtin float raised to a fractional power is a complex number. *)
Inductive pyval : Type :=
| Float (v : float64)
| Complex.

(** The largest finite binary64 value. *)
Definition DBL_MAX : R := (2 - / 2 ^ 52) * 2 ^ 1023.

(** [x ** y] for a finite positive exponent [y] that is not an integer
    ([calculate] uses [1.5]).  A finite power above [DBL_MAX] raises
    [OverflowError] for a builtin float and is [+inf] (with a warning) for a
    [numpy.float64]. *)
Definition py_pow (k : numkind) (x : float64) (y : R) : result pyval :=
  match x with
  | Fin b =>
      if Rlt_dec 0 b then
        if Rle_dec (Rpower b y) DBL_MAX then Ok (Float (Fin (Rpower b y)))
        else
          match k with
          | PyFloat => Raise OverflowError
          | NpFloat64 => Ok (Float PInf)
          end
      else if Rlt_dec b 0 then
        match k with
        | PyFloat => Ok Complex
        | NpFloat64 => Ok (Float NaN)
        end
      else Ok (Float (Fin 0))
  | PInf => Ok (Float PInf)
  | NInf => Ok (Float PInf)
  | NaN => Ok (Float NaN)
  end.

(** The power does not raise: a [numpy.float64] never does, a positive
    builtin float must have its power within [DBL_MAX]. *)
Definition pow_fits (k : numkind) (b y : R) : Prop :=
  match k with
  | PyFloat => 0 < b -> Rpower b y <= DBL_MAX
  | NpFloat64 => True
  end.

(** [a + v] for a float [a]. *)
Definition pv_add (a : float64) (v : pyval) : pyval :=
  match v with
  | Float b => Float (fadd a b)
  | Complex => Complex
  end.

(** [min(a, v)]: ordering a complex number raises [TypeError]. *)
Definition pv_min (a : float64) (v : pyval) : result float64 :=
  match v with
  | Float b => Ok (py_min a b)
  | Complex => Raise TypeError
  end.

(** Round half to even, to an integer. *)
Definition rint (x : R) : Z :=
  let n := Int_part x in
  let d := x - IZR n in
  if Rlt_dec d (1 / 2) then n
  else if Rlt_dec (1 / 2) d then (n + 1)%Z
  else if Z.even n then n else (n + 1)%Z.

(** [round(x, ndigits)] on a [numpy.float64]: scale, round half to even,
    scale back; non-finite values are returned unchanged. *)
Definition py_round (x : float64) (ndigits : nat) : float64 :=
  match x with
  | Fin r => Fin (IZR (rint (r * 10 ^ ndigits)) / 10 ^ ndigits)
  | _ => x
  end.

(** ** StarRating.calculate *)

Module StarRating.

Definition calculate (k : numkind)
    (prob mean_diff over_consistency volatility trend_strength : float64)
    : result float64 :=
  power <- py_pow k (fdiv prob 20) 1.5 ;;
  base <- pv_min (Fin 5) (pv_add (Fin 0.5) power) ;;
  let adjustments :=
    fsub
      (fadd
         (fadd (fmul (Fin 0.8) mean_diff) (fmul (Fin 0.6) over_consistency))
         (fmul (Fin 0.4) (log1p volatility)))
      (fmul (Fin 0.3) trend_strength) in
  Ok (py_min (Fin 5) (py_max (Fin 1) (py_round (fadd base adjustments) 1))).

End StarRating.

(** ** Configuration constants *)

Definition NBA_STD_DEV : R := 12.5.
Definition NB_R : R := 6.8.
Definition NUM_SIMULATIONS : nat := Z.to_nat 50000.

(** ** Data model *)

(** The dictionaries [home] and [away]: keys ['avg'], ['allow'] and
    ['over_rate']. *)
Record TeamStats : Type := {
  avg : R;
  allow : R;
  over_rate : R
}.

(** The dictionary returned by [simulate_game], one field per key. *)
Record SimulationResult : Type := {
  combined_avg : R;
  probability : R;
  stars : float64;
  mc_prob : R;
  nb_prob : R;
  poisson_prob : R;
  home_score : R;
  away_score : R;
  recommendation : string
}.

(** The two recommendation labels of the source: ['大分'] (over, literally
    "high score") and ['小分'] (under). *)
Definition over_label : string := "大分".
Definition under_label : string := "小分".

(** ** Random sources and array primitives *)

(** The variates behind the sampling calls.  The first argument numbers
    the call sites of one sampler in program order (0: home, 1: away), the
    last one is the index in the returned array; the others are the
    distribution parameters. *)
Record RandomSource : Type := {
  normal_variate : nat -> R -> R -> nat -> R;
  nbinom_variate : nat -> R -> R -> nat -> Z;
  poisson_variate : nat -> R -> nat -> Z
}.

(** The value of an integer as an [int64]: arithmetic and conversions wrap
    around modulo [2^64]. *)
Definition int64_wrap (z : Z) : Z :=
  ((z + 2 ^ 63) mod 2 ^ 64 - 2 ^ 63)%Z.

(** The largest Poisson rate NumPy accepts:
    [iinfo(int64).max - sqrt(iinfo(int64).max) * 10]. *)
Definition POISSON_LAM_MAX : R :=
  IZR (2 ^ 63 - 1) - sqrt (IZR (2 ^ 63 - 1)) * 10.

(** [numpy.random.normal(loc, scale, size)]. *)
Definition np_random_normal (rs : RandomSource) (call : nat)
    (loc scale : R) (size : nat) : list R :=
  map (normal_variate rs call loc scale) (seq 0 size).

(** [scipy.stats.nbinom.rvs(n, p, size=size)]: the arguments are checked
    ([n > 0] and [0 < p <= 1]) and a domain error is a [ValueError].  The
    draws are [int64] values; for a very large mean they wrap around and
    can be negative. *)
Definition nbinom_rvs (rs : RandomSource) (call : nat)
    (n p : R) (size : nat) : result (list Z) :=
  if Rlt_dec 0 n then
    if Rlt_dec 0 p then
      if Rle_dec p 1 then
        Ok (map (fun i => int64_wrap (nbinom_variate rs call n p i))
                (seq 0 size))
      else Raise ValueError
    else Raise ValueError
  else Raise ValueError.

(** [scipy.stats.poisson.rvs(mu, size=size)]: requires [mu >= 0], and NumPy
    rejects a rate above [POISSON_LAM_MAX] ("lam value too large") with a
    [ValueError]. *)
Definition poisson_rvs (rs : RandomSource) (call : nat)
    (mu : R) (size : nat) : result (list Z) :=
  if Rle_dec 0 mu then
    if Rle_dec mu POISSON_LAM_MAX then
      Ok (map (fun i => int64_wrap (poisson_variate rs call mu i))
              (seq 0 size))
    else Raise ValueError
  else Raise ValueError.

(** Element-wise sum of two arrays of the same shape. *)
Definition arr_add (xs ys : list R) : list R :=
  map (fun p => fst p + snd p) (combine xs ys).

(** The same for [int64] arrays: every sum wraps around. *)
Definition arr_add_int (xs ys : list Z) : list Z :=
  map (fun p => int64_wrap (fst p + snd p)) (combine xs ys).

(** Element-wise [xs > t]. *)
Definition arr_gt (xs : list R) (t : R) : list bool :=
  map (fun x => if Rlt_dec t x then true else false) xs.

Definition arr_int_gt (xs : list Z) (t : R) : list bool :=
  arr_gt (map IZR xs) t.

(** [numpy.mean] of a boolean array: the fraction of [True] entries.  The
    arrays of [simulate_game] have [NUM_SIMULATIONS] entries, so the divisor
    is never zero there. *)
Definition np_mean_bool (bs : list bool) : R :=
  INR (count_occ bool_dec bs true) / INR (List.length bs).

(** [numpy.mean] and [numpy.std] (population standard deviation) of a
    float array. *)
Definition np_sum (xs : list R) : R := fold_right Rplus 0 xs.

Definition np_mean (xs : list R) : R := np_sum xs / INR (List.length xs).

Definition np_std (xs : list R) : R :=
  let m := np_mean xs in
  sqrt (np_mean (map (fun x => Rabs (x - m) ^ 2) xs)).

(** ** simulate_game *)

Definition weighted_score (data : TeamStats) (opp_allow : R) : R :=
  (avg data * 0.7 + opp_allow * 0.3) * (1 + over_rate data * 0.05).

Definition generate_nb (rs : RandomSource) (call : nat) (mean : R)
    : result (list Z) :=
  if Req_dec_T (NB_R + mean) 0 then Raise ZeroDivisionError
  else
    let p := NB_R / (NB_R + mean) in
    nbinom_rvs rs call NB_R p NUM_SIMULATIONS.

Definition generate_poisson (rs : RandomSource) (call : nat) (mean : R)
    : result (list Z) :=
  poisson_rvs rs call mean NUM_SIMULATIONS.

(** The four signals handed to the rating (local variables of
    [simulate_game]). *)
Definition mean_diff (combined_avg target : R) : R :=
  (combined_avg - target) / 5.

Definition over_consistency (home away : TeamStats) : R :=
  over_rate home + over_rate away - 1.

Definition volatility (home : TeamStats) : R :=
  np_std [avg home; allow home].

Definition trend_strength (home away : TeamStats) : R :=
  over_rate home - over_rate away.

(** The conditional expression stored under ['recommendation']. *)
Definition recommend (final_prob : R) : string :=
  if Rge_dec final_prob 50 then over_label else under_label.

(** The team statistics and the target are finite floats.  [final_prob]
    comes from [numpy.mean], so the rating receives it as a
    [numpy.float64]. *)
Definition simulate_game (rs : RandomSource) (home away : TeamStats)
    (target : R) : result SimulationResult :=
  let home_score := weighted_score home (allow away) in
  let away_score := weighted_score away (allow home) in
  let combined_avg := home_score + away_score in
  let mc_scores :=
    arr_add (np_random_normal rs 0 home_score NBA_STD_DEV NUM_SIMULATIONS)
            (np_random_normal rs 1 away_score NBA_STD_DEV NUM_SIMULATIONS) in
  let mc_prob := np_mean_bool (arr_gt mc_scores target) * 100 in
  nb_home <- generate_nb rs 0 home_score ;;
  nb_away <- generate_nb rs 1 away_score ;;
  let nb_prob :=
    np_mean_bool (arr_int_gt (arr_add_int nb_home nb_away) target) * 100 in
  po_home <- generate_poisson rs 0 home_score ;;
  po_away <- generate_poisson rs 1 away_score ;;
  let poisson_prob :=
    np_mean_bool (arr_int_gt (arr_add_int po_home po_away) target) * 100 in
  let final_prob := mc_prob * 0.4 + nb_prob * 0.4 + poisson_prob * 0.2 in
  stars <- StarRating.calculate NpFloat64
             (Fin final_prob)
             (Fin (mean_diff combined_avg target))
             (Fin (over_consistency home away))
             (Fin (volatility home))
             (Fin (trend_strength home away)) ;;
  Ok {| combined_avg := combined_avg;
        probability := final_prob;
        stars := stars;
        mc_prob := mc_prob;
        nb_prob := nb_prob;
        poisson_prob := poisson_prob;
        home_score := home_score;
        away_score := away_score;
        recommendation := recommend final_prob |}.

(** ** The specification's formulas *)

Module Spec.

(** [x ^ y] on the non-negative reals. *)
Definition power (x y : R) : R :=
  if Rlt_dec 0 x then Rpower x y else 0.

Definition base (prob : R) : R := Rmin 5 (0.5 + power (prob / 20) 1.5).

Definition adjustment (meanDiff overConsistency volatility trendStrength : R)
    : R :=
  0.8 * meanDiff + 0.6 * overConsistency + 0.4 * ln (1 + volatility)
  - 0.3 * trendStrength.

(** Rounding to one decimal place. *)
Definition round1 (x : R) : R := IZR (rint (x * 10)) / 10.

Definition meanDiff (combinedAverage target : R) : R :=
  (combinedAverage - target) / 5.

Definition overConsistency (home away : TeamStats) : R :=
  over_rate home + over_rate away - 1.

(** Population standard deviation (divisor 2) of the two values [a], [b]. *)
Definition populationStdDev2 (a b : R) : R :=
  let m := (a + b) / 2 in
  sqrt (((a - m) ^ 2 + (b - m) ^ 2) / 2).

Definition trendStrength (home away : TeamStats) : R :=
  over_rate home - over_rate away.

(** The preconditions of [simulate]. *)
Definition valid_team (T : TeamStats) : Prop :=
  0 < avg T /\ 0 < allow T /\ 0 <= over_rate T <= 1.

Definition valid_input (home away : TeamStats) (target : R) : Prop :=
  valid_team home /\ valid_team away /\ 0 < target.

End Spec.

(** ** Worked inputs *)

(** The default values of the input form. *)
Definition home0 : TeamStats :=
  {| avg := 110; allow := 108; over_rate := 0.55 |}.
Definition away0 : TeamStats :=
  {| avg := 112; allow := 111; over_rate := 0.5 |}.

(** A home team with a zero scoring average. *)
Definition home_zero_avg : TeamStats :=
  {| avg := 0; allow := 108; over_rate := 0.55 |}.

(** A degenerate random source: every normal draw sits at its mean and
    every count is zero. *)
Definition rs_const : RandomSource :=
  {| normal_variate := fun _ loc _ _ => loc;
     nbinom_variate := fun _ _ _ _ => 0%Z;
     poisson_variate := fun _ _ _ => 0%Z |}.

(** The same home team with a higher scoring average. *)
Definition home0_plus : TeamStats :=
  {| avg := 115; allow := 108; over_rate := 0.55 |}.

(** Every normal draw is 1000, every negative-binomial draw is 0, and the
    Poisson draws alternate between 1000 and 0. *)
Definition rs_half : RandomSource :=
  {| normal_variate := fun _ _ _ _ => 1000;
     nbinom_variate := fun _ _ _ _ => 0%Z;
     poisson_variate := fun _ _ i => if Nat.even i then 1000%Z else 0%Z |}.

(** ** The input form and the result page *)

Module Form.

(** The values of the widgets of [nba_form] at submission. *)
Record Values : Type := {
  home_avg : R;
  home_allow : R;
  home_over : Z;
  away_avg : R;
  away_allow : R;
  away_over : Z;
  target : R
}.

(** What the widgets guarantee: a number input stays between its
    [min_value] and [max_value], a slider returns an integer between its
    two bounds. *)
Definition in_range (f : Values) : Prop :=
  50 <= home_avg f <= 150 /\ 50 <= home_allow f <= 150 /\
  (0 <= home_over f <= 100)%Z /\
  50 <= away_avg f <= 150 /\ 50 <= away_allow f <= 150 /\
  (0 <= away_over f <= 100)%Z /\
  100 <= target f <= 300.

(** The two dictionaries built after submission. *)
Definition home (f : Values) : TeamStats :=
  {| avg := home_avg f;
     allow := home_allow f;
     over_rate := IZR (home_over f) / 100 |}.

Definition away (f : Values) : TeamStats :=
  {| avg := away_avg f;
     allow := away_allow f;
     over_rate := IZR (away_over f) / 100 |}.

End Form.

(** An exception that reaches the page and ends the script. *)
Inductive page_exn : Type :=
| Exn (e : exn).

Inductive outcome (A : Type) : Type :=
| Done (a : A)
| Crash (e : page_exn).

Arguments Done {A} a.
Arguments Crash {A} e.

(** [round(x)] without [ndigits]: the nearest integer, ties to even; [nan]
    raises [ValueError] and an infinity [OverflowError]. *)
Definition py_round_int (x : float64) : outcome Z :=
  match x with
  | Fin r => Done (rint r)
  | NaN => Crash (Exn ValueError)
  | PInf | NInf => Crash (Exn OverflowError)
  end.

(** A [str] as its list of code points; [s * n] is empty for [n <= 0]. *)
Definition str_mul (s : list N) (n : Z) : list N :=
  List.concat (List.repeat s (Z.to_nat n)).

(** The glyphs U+2605 (filled star) and U+2606 (empty star). *)
Definition BLACK_STAR : list N := [9733%N].
Definition WHITE_STAR : list N := [9734%N].

Definition star_bar (stars : Z) : list N :=
  str_mul BLACK_STAR stars ++ str_mul WHITE_STAR (5 - stars).

(** The dictionary [explanation], keyed by the floats 5.0 to 1.0. *)
Definition explanation : list (R * string) :=
  [(5, "🔥 極強信號：大分價值極高"%string);
   (4, "✅ 強力推薦：大分優勢明顯"%string);
   (3, "➖ 中性建議：需綜合判斷"%string);
   (2, "⚠️ 謹慎考慮：傾向小分"%string);
   (1, "❌ 強烈規避：小分機率高"%string)].

(** [d.get(key, default)]: keys are compared as numbers, so the integer
    [5] finds the key [5.0]. *)
Fixpoint dict_get (d : list (R * string)) (key : R) (default : string)
    : string :=
  match d with
  | [] => default
  | (k, v) :: d' => if Req_dec_T k key then v else dict_get d' key default
  end.

(** What the result page computes from a result: the star count, the bar
    of glyphs and the explanation.  The formatting of the numbers into
    text is not modelled. *)
Record Page : Type := {
  page_result : SimulationResult;
  page_stars : Z;
  page_bar : list N;
  page_explanation : string
}.

Definition render (res : SimulationResult) : outcome Page :=
  match py_round_int (stars res) with
  | Crash e => Crash e
  | Done stars_n =>
      let bar := star_bar stars_n in
      match py_round_int (stars res) with
      | Crash e => Crash e
      | Done key =>
          Done {| page_result := res;
                  page_stars := stars_n;
                  page_bar := bar;
                  page_explanation := dict_get explanation (IZR key) ""%string |}
      end
  end.

(** The script after the form: nothing is shown until the form is
    submitted. *)
Definition page (rs : RandomSource) (submitted : bool) (f : Form.Values)
    : outcome (option Page) :=
  if submitted then
    match simulate_game rs (Form.home f) (Form.away f) (Form.target f) with
    | Raise e => Crash (Exn e)
    | Ok res =>
        match render res with
        | Done pg => Done (Some pg)
        | Crash e => Crash e
        end
    end
  else Done None.

(** A result dictionary whose rating is 2.5. *)
Definition result_half_star : SimulationResult :=
  {| combined_avg := 231.75;
     probability := 20;
     stars := Fin 2.5;
     mc_prob := 20;
     nb_prob := 20;
     poisson_prob := 20;
     home_score := 115.875;
     away_score := 115.875;
     recommendation := under_label |}.

(** The default values of the widgets. *)
Definition form0 : Form.Values :=
  {| Form.home_avg := 110; Form.home_allow := 108; Form.home_over := 55;
     Form.away_avg := 112; Form.away_allow := 111; Form.away_over := 50;
     Form.target := 225.5 |}.

(** * Verification *)

(** ** Constructors are injective *)

Lemma Ok_inj {A : Type} (a b : A) : Ok a = Ok b -> a = b.
Proof.
  intros H. now injection H.
Qed.

Lemma Fin_inj (x y : R) : Fin x = Fin y -> x = y.
Proof.
  intros H. now injection H.
Qed.

(** Closes goals about [Rmin] and [Rmax] by cases on the comparisons. *)
Ltac solve_clamp :=
  unfold Rmin, Rmax; repeat destruct (Rle_dec _ _); lra.

(** ** Rounding *)

Lemma Int_part_bounds (x : R) :
  IZR (Int_part x) <= x < IZR (Int_part x) + 1.
Proof.
  destruct (base_Int_part x) as [Hlo Hhi]. split; lra.
Qed.

Lemma rint_cases (x : R) :
  (rint x = Int_part x /\ x <= IZR (Int_part x) + 1 / 2) \/
  (rint x = (Int_part x + 1)%Z /\ IZR (Int_part x) + 1 / 2 <= x).
Proof.
  unfold rint.
  destruct (Rlt_dec (x - IZR (Int_part x)) (1 / 2)) as [Hlt | Hge].
  { left. split; [reflexivity | lra]. }
  destruct (Rlt_dec (1 / 2) (x - IZR (Int_part x))) as [Hgt | Hle].
  - right. split; [reflexivity | lra].
  - destruct (Z.even (Int_part x)).
    + left. split; [reflexivity | lra].
    + right. split; [reflexivity | lra].
Qed.

Lemma rint_le (x : R) (m : Z) : x <= IZR m -> (rint x <= m)%Z.
Proof.
  intros Hx. destruct (Int_part_bounds x) as [Hlo Hhi].
  assert (Hn : (Int_part x <= m)%Z) by (apply le_IZR; lra).
  destruct (rint_cases x) as [[-> _] | [-> Hhalf]]; [exact Hn |].
  assert (Hlt : (Int_part x < m)%Z) by (apply lt_IZR; lra).
  lia.
Qed.

Lemma rint_ge (x : R) (m : Z) : IZR m <= x -> (m <= rint x)%Z.
Proof.
  intros Hx. destruct (Int_part_bounds x) as [Hlo Hhi].
  assert (Hlt : (m < Int_part x + 1)%Z).
  { apply lt_IZR. rewrite plus_IZR. lra. }
  destruct (rint_cases x) as [[-> _] | [-> _]]; lia.
Qed.

(** Strictly inside a rounding interval the nearest integer is the result. *)
Lemma rint_near (x : R) (m : Z) :
  IZR m - 1 / 2 < x < IZR m + 1 / 2 -> rint x = m.
Proof.
  intros [Hlo Hhi]. destruct (Int_part_bounds x) as [Hn Hn1].
  assert (H1 : (m - 2 < Int_part x)%Z).
  { apply lt_IZR. rewrite minus_IZR. lra. }
  assert (H2 : (Int_part x < m + 1)%Z).
  { apply lt_IZR. rewrite plus_IZR. lra. }
  destruct (rint_cases x) as [[-> Hle] | [-> Hge]].
  - assert (Hne : Int_part x <> (m - 1)%Z).
    { intros E. rewrite E, minus_IZR in Hle. lra. }
    lia.
  - assert (Hne : Int_part x <> m).
    { intros E. rewrite E in Hge. lra. }
    lia.
Qed.

Lemma rint_IZR (m : Z) : rint (IZR m) = m.
Proof.
  apply Z.le_antisymm; [apply rint_le | apply rint_ge]; lra.
Qed.

(** Rounding to one decimal cannot cross a multiple of one tenth. *)
Lemma round1_le (x : R) (m : Z) :
  x <= IZR m / 10 -> Spec.round1 x <= IZR m / 10.
Proof.
  intros Hx. unfold Spec.round1.
  assert (H : (rint (x * 10) <= m)%Z) by (apply rint_le; lra).
  apply IZR_le in H. lra.
Qed.

Lemma round1_ge (x : R) (m : Z) :
  IZR m / 10 <= x -> IZR m / 10 <= Spec.round1 x.
Proof.
  intros Hx. unfold Spec.round1.
  assert (H : (m <= rint (x * 10))%Z) by (apply rint_ge; lra).
  apply IZR_le in H. lra.
Qed.

Lemma round1_tenths (m : Z) : Spec.round1 (IZR m / 10) = IZR m / 10.
Proof.
  unfold Spec.round1.
  replace (IZR m / 10 * 10) with (IZR m) by lra.
  now rewrite rint_IZR.
Qed.

Lemma py_round_1 (x : R) : py_round (Fin x) 1 = Fin (Spec.round1 x).
Proof.
  unfold py_round, Spec.round1. simpl. now rewrite Rmult_1_r.
Qed.

(** ** Builtin [min] and [max] on finite values *)

Lemma py_min_fin (a b : R) : py_min (Fin a) (Fin b) = Fin (Rmin a b).
Proof.
  unfold py_min, flt, Rmin.
  destruct (Rlt_dec b a), (Rle_dec a b); try reflexivity; f_equal; lra.
Qed.

Lemma py_max_fin (a b : R) : py_max (Fin a) (Fin b) = Fin (Rmax a b).
Proof.
  unfold py_max, flt, Rmax.
  destruct (Rlt_dec a b), (Rle_dec a b); try reflexivity; f_equal; lra.
Qed.

(** Whatever is rounded, the final [min(5, max(1, _))] is a finite value
    between 1 and 5. *)
Lemma clamp_total (v : float64) :
  exists r, py_min (Fin 5) (py_max (Fin 1) v) = Fin r /\ 1 <= r <= 5.
Proof.
  destruct v as [x | | |].
  - rewrite py_max_fin, py_min_fin. eexists. split; [reflexivity |].
    solve_clamp.
  - exists 5. unfold py_max, py_min, flt. split; [reflexivity | lra].
  - exists 1. unfold py_max, py_min, flt.
    destruct (Rlt_dec 1 5); [split; [reflexivity | lra] | lra].
  - exists 1. unfold py_max, py_min, flt.
    destruct (Rlt_dec 1 5); [split; [reflexivity | lra] | lra].
Qed.

(** ** StarRating.calculate: closed form and totality *)

Import StarRating.

(** [DBL_MAX] is at least [2^1023], far above every power met below. *)
Lemma DBL_MAX_lower : 1024 <= DBL_MAX.
Proof.
  unfold DBL_MAX.
  assert (H52 : 1 <= 2 ^ 52) by (apply pow_R1_Rle; lra).
  assert (Hinv : / 2 ^ 52 <= 1).
  { rewrite <- Rinv_1. apply Rinv_le_contravar; lra. }
  change 1023%nat with (10 + 1013)%nat. rewrite pow_add.
  assert (H1013 : 1 <= 2 ^ 1013) by (apply pow_R1_Rle; lra).
  replace (2 ^ 10) with 1024 by (simpl; lra).
  set (P := 2 ^ 1013) in *. set (Q := / 2 ^ 52) in *. nra.
Qed.

Lemma py_pow_fin (k : numkind) (p : R) :
  0 <= p -> pow_fits k (p / 20) 1.5 ->
  exists pw,
    py_pow k (fdiv (Fin p) 20) 1.5 = Ok pw /\
    pv_min (Fin 5) (pv_add (Fin 0.5) pw) = Ok (Fin (Spec.base p)).
Proof.
  intros Hp Hfit. pose proof DBL_MAX_lower as HD.
  unfold Spec.base, Spec.power, fdiv, fmul, py_pow, Rdiv in *.
  destruct (Rlt_dec 0 (p * / 20)) as [Hpos | Hnpos].
  - destruct (Rle_dec (Rpower (p * / 20) 1.5) DBL_MAX) as [Hle | Hgt].
    + eexists. split; [reflexivity |].
      cbn [pv_add pv_min fadd]. now rewrite py_min_fin.
    + destruct k; [exfalso; apply Hgt, Hfit, Hpos |].
      eexists. split; [reflexivity |].
      cbn [pv_add pv_min fadd]. unfold py_min, flt. do 2 f_equal.
      solve_clamp.
  - destruct (Rlt_dec (p * / 20) 0) as [Hneg | _]; [lra |].
    eexists. split; [reflexivity |].
    cbn [pv_add pv_min fadd]. now rewrite py_min_fin.
Qed.

Lemma log1p_fin (v : R) : -1 < v -> log1p (Fin v) = Fin (ln (1 + v)).
Proof.
  intros Hv. unfold log1p. destruct (Rlt_dec (-1) v); [reflexivity | lra].
Qed.

Lemma calculate_fin (k : numkind) (p md oc v ts : R) :
  0 <= p -> pow_fits k (p / 20) 1.5 -> -1 < v ->
  calculate k (Fin p) (Fin md) (Fin oc) (Fin v) (Fin ts)
  = Ok (Fin (Rmin 5 (Rmax 1
      (Spec.round1 (Spec.base p + Spec.adjustment md oc v ts))))).
Proof.
  intros Hp Hfit Hv. unfold calculate.
  destruct (py_pow_fin k p Hp Hfit) as (pw & -> & Hb).
  cbn [bind]. rewrite Hb. cbn [bind].
  rewrite (log1p_fin v Hv). cbn [fmul fadd fsub fneg].
  rewrite py_round_1, py_max_fin, py_min_fin.
  reflexivity.
Qed.

(** With a NumPy probability the power never raises and the base never
    leaves the floats. *)
Lemma base_numpy (prob : float64) :
  exists pw b,
    py_pow NpFloat64 (fdiv prob 20) 1.5 = Ok pw /\
    pv_min (Fin 5) (pv_add (Fin 0.5) pw) = Ok b.
Proof.
  unfold py_pow.
  destruct (fdiv prob 20) as [b | | |];
    try (eexists; eexists; split; reflexivity).
  destruct (Rlt_dec 0 b); [destruct (Rle_dec _ DBL_MAX) |
                           destruct (Rlt_dec b 0)];
    eexists; eexists; split; reflexivity.
Qed.

Lemma base_not_negative (k : numkind) (prob : float64) :
  (forall p, prob = Fin p -> 0 <= p /\ pow_fits k (p / 20) 1.5) ->
  exists pw b,
    py_pow k (fdiv prob 20) 1.5 = Ok pw /\
    pv_min (Fin 5) (pv_add (Fin 0.5) pw) = Ok b.
Proof.
  intros Hprob. destruct k; [| apply base_numpy].
  destruct prob as [p | | |].
  - destruct (Hprob p eq_refl) as [Hp Hfit].
    destruct (py_pow_fin PyFloat p Hp Hfit) as (pw & Hpw & Hb).
    exists pw. eexists. split; [exact Hpw | exact Hb].
  - unfold fdiv, fmul, mul_inf.
    destruct (Rlt_dec 0 (/ 20)); [| destruct (Rlt_dec (/ 20) 0)];
      eexists; eexists; split; reflexivity.
  - unfold fdiv, fmul, mul_inf.
    destruct (Rlt_dec 0 (/ 20)); [| destruct (Rlt_dec (/ 20) 0)];
      eexists; eexists; split; reflexivity.
  - eexists. eexists. split; reflexivity.
Qed.


(** With a NumPy probability [calculate] returns a rating for all
    arguments. *)
Lemma calculate_total_numpy (prob md oc v ts : float64) :
  exists r, calculate NpFloat64 prob md oc v ts = Ok (Fin r) /\ 1 <= r <= 5.
Proof.
  unfold calculate.
  destruct (base_numpy prob) as (pw & b & -> & Hb).
  cbn [bind]. rewrite Hb. cbn [bind].
  match goal with
  | |- context [py_max (Fin 1) ?x] => destruct (clamp_total x) as [r [-> Hr]]
  end.
  now exists r.
Qed.



(** Every returned rating is the clamp of a rounded value. *)
Lemma calculate_clamped (k : numkind) (prob md oc v ts val : float64) :
  calculate k prob md oc v ts = Ok val ->
  exists x, val = py_min (Fin 5) (py_max (Fin 1) (py_round x 1)).
Proof.
  unfold calculate.
  destruct (py_pow _ _ _) as [pw | e]; cbn [bind]; [| discriminate].
  destruct (pv_min _ _) as [b | e]; cbn [bind]; [| discriminate].
  intros H. apply Ok_inj in H. subst val.
  eexists. reflexivity.
Qed.

(** [x ** 1.5] is [x * sqrt x]. *)
Lemma Rpower_three_halves (x : R) : 0 < x -> Rpower x 1.5 = x * sqrt x.
Proof.
  intros Hx. replace 1.5 with (1 + / 2) by lra.
  now rewrite Rpower_plus, Rpower_1, Rpower_sqrt.
Qed.

(** Up to [prob = 2000], twenty times a certainty, the power is far from
    overflowing. *)
Lemma pow_fits_bounded (k : numkind) (prob : R) :
  0 <= prob <= 2000 -> pow_fits k (prob / 20) 1.5.
Proof.
  intros Hp. destruct k; [| exact I].
  intros Hpos. rewrite Rpower_three_halves by exact Hpos.
  pose proof DBL_MAX_lower as HD.
  pose proof (sqrt_pos (prob / 20)) as Hs0.
  assert (Hs : sqrt (prob / 20) <= 10).
  { rewrite <- (sqrt_square 10) by lra. apply sqrt_le_1_alt. lra. }
  nra.
Qed.

(** The power of a smaller base fits when that of a larger one does. *)
Lemma pow_fits_mono (k : numkind) (b c : R) :
  b <= c -> pow_fits k c 1.5 -> pow_fits k b 1.5.
Proof.
  intros Hbc Hfit. destruct k; [| exact I].
  intros Hpos. apply Rle_trans with (Rpower c 1.5); [| apply Hfit; lra].
  apply Rle_Rpower_l; lra.
Qed.

(** Discharges the side conditions of [calculate_fin]. *)
Ltac solve_fits :=
  first [lra | exact I | assumption | apply pow_fits_bounded; lra].

(** Evaluates the base of an unfolded [calculate] at a finite probability. *)
Ltac calc_base k p :=
  let pw := fresh "pw" in
  let Hpw := fresh "Hpw" in
  let Hb := fresh "Hb" in
  destruct (py_pow_fin k p) as (pw & Hpw & Hb);
  [solve_fits | solve_fits |
   rewrite Hpw; cbn [bind]; rewrite Hb; cbn [bind]; clear pw Hpw Hb].

(** ** Sampled probabilities *)

Lemma count_true_le (bs : list bool) :
  (count_occ bool_dec bs true <= List.length bs)%nat.
Proof.
  induction bs as [| b bs IH]; [apply Nat.le_refl |].
  cbn [count_occ List.length]. destruct (bool_dec b true); lia.
Qed.

(** The mean of a boolean array is a fraction. *)
Lemma np_mean_bool_range (bs : list bool) : 0 <= np_mean_bool bs <= 1.
Proof.
  unfold np_mean_bool.
  pose proof (count_true_le bs) as Hc. apply le_INR in Hc.
  pose proof (pos_INR (count_occ bool_dec bs true)) as H0.
  destruct (List.length bs) as [| n] eqn:E.
  - unfold Rdiv. cbn [INR]. rewrite Rinv_0. lra.
  - assert (Hn : 0 < INR (S n)) by (apply lt_0_INR; lia).
    split.
    + apply Rmult_le_pos; [exact H0 |].
      apply Rlt_le, Rinv_0_lt_compat, Hn.
    + apply Rmult_le_reg_r with (r := INR (S n)); [exact Hn |].
      unfold Rdiv. rewrite Rmult_assoc, Rinv_l by lra. lra.
Qed.

Lemma percent_range (bs : list bool) : 0 <= np_mean_bool bs * 100 <= 100.
Proof.
  pose proof (np_mean_bool_range bs). lra.
Qed.

Lemma length_np_random_normal rs call loc scale size :
  List.length (np_random_normal rs call loc scale size) = size.
Proof.
  unfold np_random_normal. now rewrite length_map, length_seq.
Qed.

Lemma length_arr_add (xs ys : list R) :
  List.length (arr_add xs ys) = Nat.min (List.length xs) (List.length ys).
Proof.
  unfold arr_add. now rewrite length_map, length_combine.
Qed.

Lemma length_arr_gt (xs : list R) (t : R) :
  List.length (arr_gt xs t) = List.length xs.
Proof.
  unfold arr_gt. apply length_map.
Qed.

(** The Monte Carlo fraction is taken over [NUM_SIMULATIONS] paired draws. *)
Lemma mc_sample_size (rs : RandomSource) (a b t : R) :
  List.length
    (arr_gt (arr_add (np_random_normal rs 0 a NBA_STD_DEV NUM_SIMULATIONS)
                     (np_random_normal rs 1 b NBA_STD_DEV NUM_SIMULATIONS)) t)
  = NUM_SIMULATIONS.
Proof.
  rewrite length_arr_gt, length_arr_add, !length_np_random_normal.
  apply Nat.min_id.
Qed.

(** ** The population standard deviation of two values *)

Lemma np_std_pair (a b : R) : np_std [a; b] = Spec.populationStdDev2 a b.
Proof.
  unfold np_std, Spec.populationStdDev2, np_mean, np_sum.
  cbn [map fold_right List.length INR].
  rewrite !pow2_abs. f_equal. lra.
Qed.

Lemma populationStdDev2_closed (a b : R) :
  Spec.populationStdDev2 a b = Rabs (a - b) / 2.
Proof.
  unfold Spec.populationStdDev2.
  replace (((a - (a + b) / 2) ^ 2 + (b - (a + b) / 2) ^ 2) / 2)
    with (((a - b) / 2)²) by (unfold Rsqr; lra).
  rewrite sqrt_Rsqr_abs. unfold Rdiv.
  rewrite Rabs_mult, (Rabs_pos_eq (/ 2)) by lra. reflexivity.
Qed.

Lemma volatility_nonneg (home : TeamStats) : 0 <= volatility home.
Proof.
  unfold volatility, np_std. apply sqrt_pos.
Qed.

(** ** simulate_game: when it returns and what it returns *)

(** NumPy's Poisson rate limit is above nine quintillion. *)
Lemma POISSON_LAM_MAX_lower : 9000000000000000000 <= POISSON_LAM_MAX.
Proof.
  unfold POISSON_LAM_MAX.
  change (2 ^ 63 - 1)%Z with 9223372036854775807%Z.
  assert (Hs : sqrt 9223372036854775807 <= 4294967296).
  { rewrite <- (sqrt_square 4294967296) by lra.
    apply sqrt_le_1_alt. lra. }
  lra.
Qed.

Lemma int64_wrap_id (z : Z) :
  (- 2 ^ 63 <= z < 2 ^ 63)%Z -> int64_wrap z = z.
Proof.
  intros Hz. unfold int64_wrap. rewrite Z.mod_small; lia.
Qed.

Section Simulate.

Variable rs : RandomSource.

Lemma generate_nb_eq (call : nat) (mean : R) :
  0 <= mean ->
  generate_nb rs call mean
  = Ok (map (fun i =>
               int64_wrap
                 (nbinom_variate rs call NB_R (NB_R / (NB_R + mean)) i))
            (seq 0 NUM_SIMULATIONS)).
Proof.
  intros Hm. unfold generate_nb, nbinom_rvs, NB_R.
  destruct (Req_dec_T (6.8 + mean) 0) as [H0 | _]; [lra |].
  assert (Hq : 0 < / (6.8 + mean)) by (apply Rinv_0_lt_compat; lra).
  assert (Hone : (6.8 + mean) * / (6.8 + mean) = 1) by (apply Rinv_r; lra).
  destruct (Rlt_dec 0 6.8) as [_ | H]; [| lra].
  destruct (Rlt_dec 0 (6.8 / (6.8 + mean))) as [_ | H];
    [| exfalso; apply H; unfold Rdiv; nra].
  destruct (Rle_dec (6.8 / (6.8 + mean)) 1) as [_ | H];
    [| exfalso; apply H; unfold Rdiv; nra].
  reflexivity.
Qed.

Lemma generate_poisson_eq (call : nat) (mean : R) :
  0 <= mean <= POISSON_LAM_MAX ->
  generate_poisson rs call mean
  = Ok (map (fun i => int64_wrap (poisson_variate rs call mean i))
            (seq 0 NUM_SIMULATIONS)).
Proof.
  intros Hm. unfold generate_poisson, poisson_rvs.
  destruct (Rle_dec 0 mean); [| lra].
  destruct (Rle_dec mean POISSON_LAM_MAX); [reflexivity | lra].
Qed.

(** A rate above NumPy's limit is rejected by the Poisson sampler. *)
Lemma generate_poisson_too_large (call : nat) (mean : R) :
  POISSON_LAM_MAX < mean ->
  generate_poisson rs call mean = Raise ValueError.
Proof.
  intros Hm. unfold generate_poisson, poisson_rvs.
  destruct (Rle_dec 0 mean); [| reflexivity].
  destruct (Rle_dec mean POISSON_LAM_MAX); [lra | reflexivity].
Qed.

Lemma generate_nb_ok (call : nat) (mean : R) :
  0 <= mean -> exists xs, generate_nb rs call mean = Ok xs.
Proof.
  intros Hm. rewrite (generate_nb_eq call mean Hm). eexists. reflexivity.
Qed.

Lemma generate_poisson_ok (call : nat) (mean : R) :
  0 <= mean <= POISSON_LAM_MAX ->
  exists xs, generate_poisson rs call mean = Ok xs.
Proof.
  intros Hm. rewrite (generate_poisson_eq call mean Hm). eexists. reflexivity.
Qed.

(** A negative expected score is rejected by the negative-binomial
    sampler, after the normal draws were made. *)
Lemma generate_nb_negative (call : nat) (mean : R) :
  mean < 0 -> raises (generate_nb rs call mean).
Proof.
  intros Hm. unfold generate_nb, nbinom_rvs, NB_R.
  destruct (Req_dec_T (6.8 + mean) 0) as [H0 | Hne]; [exact I |].
  destruct (Rlt_dec 0 6.8) as [_ | H]; [| lra].
  destruct (Rlt_dec 0 (6.8 / (6.8 + mean))) as [Hp | _]; [| exact I].
  destruct (Rle_dec (6.8 / (6.8 + mean)) 1) as [Hle | _]; [| exact I].
  exfalso.
  destruct (Rlt_dec 0 (6.8 + mean)) as [Hpos | Hneg].
  - assert (Hone : (6.8 + mean) * / (6.8 + mean) = 1) by (apply Rinv_r; lra).
    assert (Hq : 0 < / (6.8 + mean)) by (apply Rinv_0_lt_compat; lra).
    unfold Rdiv in Hle. nra.
  - assert (Hlt : 6.8 + mean < 0) by lra.
    assert (Hq : / (6.8 + mean) < 0) by (apply Rinv_lt_0_compat; lra).
    unfold Rdiv in Hp. nra.
Qed.

Variables home away : TeamStats.
Variable target : R.

(** Every returned dictionary is built from the same expressions. *)
Lemma simulate_game_inv (res : SimulationResult) :
  simulate_game rs home away target = Ok res ->
  home_score res = weighted_score home (allow away) /\
  away_score res = weighted_score away (allow home) /\
  combined_avg res = home_score res + away_score res /\
  (exists bs, mc_prob res = np_mean_bool bs * 100) /\
  (exists bs, nb_prob res = np_mean_bool bs * 100) /\
  (exists bs, poisson_prob res = np_mean_bool bs * 100) /\
  probability res
    = mc_prob res * 0.4 + nb_prob res * 0.4 + poisson_prob res * 0.2 /\
  calculate NpFloat64 (Fin (probability res))
      (Fin (mean_diff (combined_avg res) target))
      (Fin (over_consistency home away))
      (Fin (volatility home))
      (Fin (trend_strength home away)) = Ok (stars res) /\
  recommendation res = recommend (probability res).
Proof.
  unfold simulate_game. cbv zeta.
  destruct (generate_nb rs 0 _) as [nbh | e]; [| discriminate].
  destruct (generate_nb rs 1 _) as [nba | e]; [| discriminate].
  destruct (generate_poisson rs 0 _) as [poh | e]; [| discriminate].
  destruct (generate_poisson rs 1 _) as [poa | e]; [| discriminate].
  cbn [bind].
  destruct (calculate _ _ _ _ _ _) as [s | e] eqn:Hs; [| discriminate].
  cbn [bind]. intros H. apply Ok_inj in H. subst res.
  cbn [home_score away_score combined_avg mc_prob nb_prob poisson_prob
       probability stars recommendation].
  repeat split; try reflexivity; try (eexists; reflexivity).
  exact Hs.
Qed.

Lemma simulate_game_ok :
  0 <= weighted_score home (allow away) <= POISSON_LAM_MAX ->
  0 <= weighted_score away (allow home) <= POISSON_LAM_MAX ->
  exists res, simulate_game rs home away target = Ok res.
Proof.
  intros Hh Ha. unfold simulate_game. cbv zeta.
  destruct (generate_nb_ok 0 _ (proj1 Hh)) as [nbh ->].
  destruct (generate_nb_ok 1 _ (proj1 Ha)) as [nba ->].
  destruct (generate_poisson_ok 0 _ Hh) as [poh ->].
  destruct (generate_poisson_ok 1 _ Ha) as [poa ->].
  cbn [bind].
  match goal with
  | |- context [calculate NpFloat64 ?p ?a ?b ?c ?d] =>
      destruct (calculate_total_numpy p a b c d) as [r [-> _]]
  end.
  cbn [bind]. eexists. reflexivity.
Qed.

(** The only failures come from the samplers: a negative expected home
    score makes the call raise while drawing the negative-binomial sample. *)
Lemma simulate_game_negative_home :
  weighted_score home (allow away) < 0 ->
  raises (simulate_game rs home away target).
Proof.
  intros Hneg. unfold simulate_game. cbv zeta.
  pose proof (generate_nb_negative 0 _ Hneg) as Hr.
  destruct (generate_nb rs 0 _) as [xs | e]; [contradiction | exact I].
Qed.

End Simulate.

(** Valid team statistics give positive expected scores. *)
Lemma weighted_score_pos (data : TeamStats) (opp_allow : R) :
  0 < avg data -> 0 < opp_allow -> 0 <= over_rate data ->
  0 < weighted_score data opp_allow.
Proof.
  intros Ha Ho Hr. unfold weighted_score.
  apply Rmult_lt_0_compat; lra.
Qed.

(** Valid team statistics whose expected scores stay within the Poisson
    rate limit give a result. *)
Lemma simulate_game_valid rs home away target :
  Spec.valid_team home -> Spec.valid_team away ->
  weighted_score home (allow away) <= POISSON_LAM_MAX ->
  weighted_score away (allow home) <= POISSON_LAM_MAX ->
  exists res, simulate_game rs home away target = Ok res.
Proof.
  intros (Hha & Hhl & Hhr & _) (Haa & Hal & Har & _) Bh Ba.
  pose proof (weighted_score_pos home (allow away) Hha Hal Hhr).
  pose proof (weighted_score_pos away (allow home) Haa Hhl Har).
  apply simulate_game_ok; lra.
Qed.

(** The example game returns a result for every target and every draw,
    with the teams in either order. *)
Lemma simulate_game_home0 rs target :
  exists res, simulate_game rs home0 away0 target = Ok res.
Proof.
  pose proof POISSON_LAM_MAX_lower.
  apply simulate_game_ok; unfold weighted_score; cbn; lra.
Qed.

Lemma simulate_game_swapped0 rs target :
  exists res, simulate_game rs away0 home0 target = Ok res.
Proof.
  pose proof POISSON_LAM_MAX_lower.
  apply simulate_game_ok; unfold weighted_score; cbn; lra.
Qed.

Lemma home0_valid : Spec.valid_team home0.
Proof. unfold Spec.valid_team, home0. cbn. lra. Qed.

Lemma away0_valid : Spec.valid_team away0.
Proof. unfold Spec.valid_team, away0. cbn. lra. Qed.

Lemma base_bounds (p : R) : 0.5 <= Spec.base p <= 5.
Proof.
  unfold Spec.base, Spec.power, Rmin.
  destruct (Rlt_dec 0 (p / 20)).
  - pose proof (exp_pos (1.5 * ln (p / 20))) as He. unfold Rpower.
    destruct (Rle_dec 5 _); lra.
  - destruct (Rle_dec 5 _); lra.
Qed.

Lemma base_zero : Spec.base 0 = 0.5.
Proof.
  unfold Spec.base, Spec.power, Rmin.
  destruct (Rlt_dec 0 (0 / 20)); [lra |].
  destruct (Rle_dec 5 _); lra.
Qed.

(** ** Claims about input validation *)

(** C1 (counterexample).  Two inputs that violate the preconditions, a zero
    [home.avg] and the target [-5], are not rejected: with any random source
    [simulate_game] raises nothing. *)
Lemma C1_invalid_input_not_rejected :
  ~ Spec.valid_input home_zero_avg away0 225.5 /\
  ~ Spec.valid_input home0 away0 (-5) /\
  forall rs,
    ~ raises (simulate_game rs home_zero_avg away0 225.5) /\
    ~ raises (simulate_game rs home0 away0 (-5)).
Proof.
  split; [| split].
  - unfold Spec.valid_input, Spec.valid_team, home_zero_avg. cbn. lra.
  - unfold Spec.valid_input. lra.
  - intros rs. pose proof POISSON_LAM_MAX_lower as HL. split.
    + destruct (simulate_game_ok rs home_zero_avg away0 225.5) as [res ->];
        [unfold weighted_score; cbn; lra .. | exact (fun H => H)].
    + destruct (simulate_game_home0 rs (-5)) as [res ->].
      exact (fun H => H).
Qed.

(** C1 (amended).  [simulate_game] does not check its preconditions and
    never clamps: whenever the two weighted expected scores are
    non-negative and within the Poisson sampler's rate limit
    [POISSON_LAM_MAX] (about 9.2e18) it returns a result whose scores are
    computed from the inputs exactly as given, whatever the sign of [target]
    or of a single field. *)
Theorem C1_simulate_game_unchecked rs home away target :
  0 <= weighted_score home (allow away) <= POISSON_LAM_MAX ->
  0 <= weighted_score away (allow home) <= POISSON_LAM_MAX ->
  exists res,
    simulate_game rs home away target = Ok res /\
    home_score res = weighted_score home (allow away) /\
    away_score res = weighted_score away (allow home) /\
    combined_avg res
      = weighted_score home (allow away) + weighted_score away (allow home).
Proof.
  intros Hh Ha.
  destruct (simulate_game_ok rs home away target Hh Ha) as [res Hres].
  exists res. split; [exact Hres |].
  destruct (simulate_game_inv rs home away target res Hres)
    as (H1 & H2 & H3 & _).
  rewrite H3, H1, H2. repeat split.
Qed.

Lemma C1_simulate_game_unchecked_witness :
  exists res,
    simulate_game rs_const home_zero_avg away0 (-5) = Ok res /\
    home_score res = weighted_score home_zero_avg (allow away0) /\
    away_score res = weighted_score away0 (allow home_zero_avg) /\
    combined_avg res
      = weighted_score home_zero_avg (allow away0)
        + weighted_score away0 (allow home_zero_avg).
Proof.
  apply (C1_simulate_game_unchecked rs_const home_zero_avg away0 (-5));
    pose proof POISSON_LAM_MAX_lower; unfold weighted_score; cbn; lra.
Defined.

(** ** Claims about the star rating *)

(** C2.  For a probability [prob >= 0] and a volatility [>= 0] the rating is
    [min(5, max(1, round(base + adjustment, 1)))] with
    [base = min(5, 0.5 + (prob/20)^1.5)] and
    [adjustment = 0.8*meanDiff + 0.6*overConsistency + 0.4*ln(1+volatility)
    - 0.3*trendStrength]: rounding to one decimal comes first, the clamp to
    [1, 5] second.  This holds for every [numpy.float64] probability, and
    for a builtin float as long as the power does not overflow
    ([pow_fits]), which covers every percentage and far more. *)
Theorem C2_calculate_formula (k : numkind)
    (prob meanDiff overConsistency volatility trendStrength : R) :
  0 <= prob -> 0 <= volatility -> pow_fits k (prob / 20) 1.5 ->
  calculate k (Fin prob) (Fin meanDiff) (Fin overConsistency)
    (Fin volatility) (Fin trendStrength)
  = Ok (Fin (Rmin 5 (Rmax 1 (Spec.round1
      (Rmin 5 (0.5 + Spec.power (prob / 20) 1.5)
       + (0.8 * meanDiff + 0.6 * overConsistency
          + 0.4 * ln (1 + volatility) - 0.3 * trendStrength)))))).
Proof.
  intros Hp Hv Hfit. apply calculate_fin; [exact Hp | exact Hfit | lra].
Qed.

Lemma C2_calculate_formula_witness :
  calculate PyFloat (Fin 20) (Fin 1) (Fin 0.05) (Fin 0) (Fin 0.05)
  = Ok (Fin (Rmin 5 (Rmax 1 (Spec.round1
      (Rmin 5 (0.5 + Spec.power (20 / 20) 1.5)
       + (0.8 * 1 + 0.6 * 0.05 + 0.4 * ln (1 + 0) - 0.3 * 0.05)))))).
Proof.
  apply (C2_calculate_formula PyFloat 20 1 0.05 0 0.05);
    [lra | lra | apply pow_fits_bounded; lra].
Defined.

Lemma power_three_halves (x : R) : 0 <= x -> Spec.power x 1.5 = x * sqrt x.
Proof.
  intros Hx. unfold Spec.power. destruct (Rlt_dec 0 x) as [Hpos | Hnpos].
  - now apply Rpower_three_halves.
  - replace x with 0 by lra. lra.
Qed.

Lemma base_20 : Spec.base 20 = 1.5.
Proof.
  unfold Spec.base. replace (20 / 20) with 1 by lra.
  rewrite power_three_halves, sqrt_1 by lra.
  unfold Rmin. destruct (Rle_dec 5 _); lra.
Qed.

(** At [prob = 80] the base is capped: [0.5 + 4^1.5 = 8.5]. *)
Lemma base_80 : Spec.base 80 = 5.
Proof.
  unfold Spec.base. replace (80 / 20) with (2 * 2) by lra.
  rewrite power_three_halves, sqrt_square by lra.
  unfold Rmin. destruct (Rle_dec 5 _); lra.
Qed.

Lemma round1_near (x : R) (m : Z) :
  IZR m / 10 - 0.05 < x < IZR m / 10 + 0.05 -> Spec.round1 x = IZR m / 10.
Proof.
  intros Hx. unfold Spec.round1. rewrite (rint_near (x * 10) m); [easy | lra].
Qed.

(** A mid-range rating: base 1.5 plus adjustment 0.815 rounds to 2.3. *)
Example calculate_mid :
  calculate NpFloat64 (Fin 20) (Fin 1) (Fin 0.05) (Fin 0) (Fin 0.05)
  = Ok (Fin 2.3).
Proof.
  rewrite calculate_fin by solve_fits. do 2 f_equal.
  rewrite base_20. unfold Spec.adjustment.
  replace (1 + 0) with 1 by lra. rewrite ln_1.
  rewrite (round1_near _ 23) by lra.
  solve_clamp.
Qed.

(** Ties go to the even tenth. *)
Example round1_ties : Spec.round1 0.25 = 0.2 /\ Spec.round1 0.35 = 0.4.
Proof.
  assert (Hi : forall m : Z, Int_part (IZR m + 1 / 2) = m).
  { intros m. symmetry. apply Int_part_spec. lra. }
  unfold Spec.round1, rint. split.
  - replace (0.25 * 10) with (IZR 2 + 1 / 2) by lra. rewrite Hi.
    destruct (Rlt_dec _ _) as [H | _]; [lra |].
    destruct (Rlt_dec _ _) as [H | _]; [lra |].
    cbn [Z.even]. lra.
  - replace (0.35 * 10) with (IZR 3 + 1 / 2) by lra. rewrite Hi.
    destruct (Rlt_dec _ _) as [H | _]; [lra |].
    destruct (Rlt_dec _ _) as [H | _]; [lra |].
    cbn [Z.even]. rewrite plus_IZR. lra.
Qed.

(** ** Claims about the expected scores *)

(** C3 (counterexample).  On the example game the combined average is
    226.90325: it does not agree with 226.91 to the two decimals shown. *)
Lemma C3_combined_average_not_226_91 :
  exists res,
    simulate_game rs_const home0 away0 225.5 = Ok res /\
    combined_avg res = 226.90325 /\
    ~ Rabs (combined_avg res - 226.91) <= 0.005.
Proof.
  destruct (simulate_game_home0 rs_const 225.5) as [res Hres].
  exists res. split; [exact Hres |].
  destruct (simulate_game_inv rs_const home0 away0 225.5 res Hres)
    as (H1 & H2 & H3 & _).
  rewrite H3, H1, H2. unfold weighted_score.
  cbn [avg allow over_rate home0 away0].
  split; [lra |].
  intros H. unfold Rabs in H. destruct (Rcase_abs _); lra.
Qed.

(** C3 (amended).  A team's expected score is
    [(T.avg * 0.7 + oppAllow * 0.3) * (1 + T.over_rate * 0.05)], taken for
    home with away's [allow] and for away with home's [allow], and the
    combined average is their sum.  On the example game
    [homeScore = 110.3 * 1.0275], [awayScore = 110.8 * 1.025] and
    [combinedAverage = 226.90325], that is 226.90 to two decimals. *)
Theorem C3_expected_scores :
  (forall rs home away target res,
     simulate_game rs home away target = Ok res ->
     home_score res
       = (avg home * 0.7 + allow away * 0.3) * (1 + over_rate home * 0.05) /\
     away_score res
       = (avg away * 0.7 + allow home * 0.3) * (1 + over_rate away * 0.05) /\
     combined_avg res = home_score res + away_score res) /\
  (forall rs res,
     simulate_game rs home0 away0 225.5 = Ok res ->
     home_score res = 110.3 * 1.0275 /\
     away_score res = 110.8 * 1.025 /\
     combined_avg res = 226.90325 /\
     Rabs (combined_avg res - 226.90) <= 0.005).
Proof.
  split.
  - intros rs home away target res Hres.
    destruct (simulate_game_inv rs home away target res Hres)
      as (H1 & H2 & H3 & _).
    rewrite H3, H1, H2. unfold weighted_score. repeat split.
  - intros rs res Hres.
    destruct (simulate_game_inv rs home0 away0 225.5 res Hres)
      as (H1 & H2 & H3 & _).
    rewrite H3, H1, H2. unfold weighted_score.
    cbn [avg allow over_rate home0 away0].
    repeat split; try lra.
    apply Rabs_le. lra.
Qed.

Lemma C3_expected_scores_witness :
  exists res,
    simulate_game rs_const home0 away0 225.5 = Ok res /\
    home_score res = 110.3 * 1.0275 /\
    away_score res = 110.8 * 1.025 /\
    combined_avg res = 226.90325 /\
    Rabs (combined_avg res - 226.90) <= 0.005.
Proof.
  destruct (simulate_game_home0 rs_const 225.5) as [res Hres].
  exists res. split; [exact Hres |].
  exact (proj2 C3_expected_scores rs_const res Hres).
Defined.

(** ** Claims about fusion and recommendation *)

(** C4.  The fused probability of a call is
    [0.4*monteCarloProb + 0.4*negBinomProb + 0.2*poissonProb] of the three
    model probabilities of that call. *)
Theorem C4_fused_probability rs home away target res :
  simulate_game rs home away target = Ok res ->
  probability res
  = 0.4 * mc_prob res + 0.4 * nb_prob res + 0.2 * poisson_prob res.
Proof.
  intros Hres.
  destruct (simulate_game_inv rs home away target res Hres)
    as (_ & _ & _ & _ & _ & _ & Hp & _).
  rewrite Hp. lra.
Qed.

Lemma C4_fused_probability_witness :
  exists res,
    simulate_game rs_const home0 away0 225.5 = Ok res /\
    probability res
    = 0.4 * mc_prob res + 0.4 * nb_prob res + 0.2 * poisson_prob res.
Proof.
  destruct (simulate_game_home0 rs_const 225.5) as [res Hres].
  exists res. split; [exact Hres |].
  exact (C4_fused_probability rs_const home0 away0 225.5 res Hres).
Defined.

(** *** A run with a fused probability of exactly 50 *)

Lemma arr_gt_add_map (f g : nat -> R) (l : list nat) (t : R) :
  arr_gt (arr_add (map f l) (map g l)) t
  = map (fun i => if Rlt_dec t (f i + g i) then true else false) l.
Proof.
  unfold arr_gt, arr_add.
  induction l as [| i l IH]; [reflexivity |].
  cbn [map combine fst snd]. now rewrite IH.
Qed.

Lemma arr_int_gt_add_map (f g : nat -> Z) (l : list nat) (t : R) :
  arr_int_gt (arr_add_int (map f l) (map g l)) t
  = map (fun i =>
           if Rlt_dec t (IZR (int64_wrap (f i + g i))) then true else false)
        l.
Proof.
  unfold arr_int_gt, arr_gt, arr_add_int.
  induction l as [| i l IH]; [reflexivity |].
  cbn [map combine fst snd]. now rewrite IH.
Qed.

Lemma count_map_true (h : nat -> bool) (l : list nat) :
  (forall i, h i = true) ->
  count_occ bool_dec (map h l) true = List.length l.
Proof.
  intros Hh. induction l as [| i l IH]; [reflexivity |].
  cbn [map count_occ List.length]. rewrite Hh, IH.
  destruct (bool_dec true true); [reflexivity | contradiction].
Qed.

Lemma count_map_false (h : nat -> bool) (l : list nat) :
  (forall i, h i = false) -> count_occ bool_dec (map h l) true = 0%nat.
Proof.
  intros Hh. induction l as [| i l IH]; [reflexivity |].
  cbn [map count_occ]. rewrite Hh, IH.
  destruct (bool_dec false true); [discriminate | reflexivity].
Qed.

(** Among [2 * n] consecutive indices exactly [n] are even. *)
Lemma count_even_seq (n s : nat) :
  count_occ bool_dec (map Nat.even (seq s (2 * n))) true = n.
Proof.
  revert s. induction n as [| n IH]; intros s; [reflexivity |].
  replace (2 * S n)%nat with (S (S (2 * n))) by lia.
  cbn [seq map count_occ]. rewrite IH, Nat.even_succ, <- Nat.negb_even.
  destruct (Nat.even s); cbn [negb];
    repeat match goal with
           | |- context [bool_dec ?a ?b] => destruct (bool_dec a b)
           end; try reflexivity; try discriminate; contradiction.
Qed.

Lemma NUM_SIMULATIONS_double : NUM_SIMULATIONS = (2 * Z.to_nat 25000)%nat.
Proof.
  unfold NUM_SIMULATIONS. change 2%nat with (Z.to_nat 2).
  rewrite <- Z2Nat.inj_mul by lia. reflexivity.
Qed.

Lemma INR_Z_to_nat (z : Z) : (0 <= z)%Z -> INR (Z.to_nat z) = IZR z.
Proof.
  intros Hz. now rewrite INR_IZR_INZ, Z2Nat.id.
Qed.

Lemma simulate_game_half :
  exists res,
    simulate_game rs_half home0 away0 225.5 = Ok res /\
    mc_prob res = 100 /\ nb_prob res = 0 /\ poisson_prob res = 50 /\
    probability res = 50 /\ recommendation res = over_label.
Proof.
  pose proof POISSON_LAM_MAX_lower as HL.
  assert (Hh : 0 <= weighted_score home0 (allow away0) <= POISSON_LAM_MAX)
    by (unfold weighted_score; cbn; lra).
  assert (Ha : 0 <= weighted_score away0 (allow home0) <= POISSON_LAM_MAX)
    by (unfold weighted_score; cbn; lra).
  assert (Hmc : forall a b,
    np_mean_bool (arr_gt (arr_add
      (np_random_normal rs_half 0 a NBA_STD_DEV NUM_SIMULATIONS)
      (np_random_normal rs_half 1 b NBA_STD_DEV NUM_SIMULATIONS)) 225.5) = 1).
  { intros a b. unfold np_random_normal, np_mean_bool.
    cbn [rs_half normal_variate]. rewrite arr_gt_add_map.
    rewrite length_map, count_map_true, length_seq.
    - unfold NUM_SIMULATIONS. rewrite INR_Z_to_nat by lia. lra.
    - intros i. destruct (Rlt_dec 225.5 (1000 + 1000)); [reflexivity | lra]. }
  assert (Hnb : forall p q,
    np_mean_bool (arr_int_gt (arr_add_int
      (map (fun i => int64_wrap (nbinom_variate rs_half 0 NB_R p i))
           (seq 0 NUM_SIMULATIONS))
      (map (fun i => int64_wrap (nbinom_variate rs_half 1 NB_R q i))
           (seq 0 NUM_SIMULATIONS)))
      225.5) = 0).
  { intros p q. unfold np_mean_bool. cbn [rs_half nbinom_variate].
    rewrite arr_int_gt_add_map, count_map_false.
    - cbn [INR]. lra.
    - intros i. change (int64_wrap (int64_wrap 0 + int64_wrap 0)) with 0%Z.
      destruct (Rlt_dec 225.5 0); [lra | reflexivity]. }
  assert (Hpo : forall a b,
    np_mean_bool (arr_int_gt (arr_add_int
      (map (fun i => int64_wrap (poisson_variate rs_half 0 a i))
           (seq 0 NUM_SIMULATIONS))
      (map (fun i => int64_wrap (poisson_variate rs_half 1 b i))
           (seq 0 NUM_SIMULATIONS)))
      225.5) = 1 / 2).
  { intros a b. unfold np_mean_bool. cbn [rs_half poisson_variate].
    rewrite arr_int_gt_add_map, length_map, length_seq.
    rewrite (map_ext _ Nat.even).
    - rewrite NUM_SIMULATIONS_double at 1. rewrite count_even_seq.
      unfold NUM_SIMULATIONS. rewrite !INR_Z_to_nat by lia. lra.
    - intros i. destruct (Nat.even i).
      + change (int64_wrap (int64_wrap 1000 + int64_wrap 1000))
          with 2000%Z.
        destruct (Rlt_dec 225.5 2000); [reflexivity | lra].
      + change (int64_wrap (int64_wrap 0 + int64_wrap 0)) with 0%Z.
        destruct (Rlt_dec 225.5 0); [lra | reflexivity]. }
  unfold simulate_game. cbv zeta.
  rewrite !generate_nb_eq by apply Hh || apply Ha.
  rewrite !generate_poisson_eq by assumption.
  cbn [bind]. rewrite Hmc, Hnb, Hpo.
  match goal with
  | |- context [calculate NpFloat64 ?p ?a ?b ?c ?d] =>
      destruct (calculate_total_numpy p a b c d) as [r [-> _]]
  end.
  cbn [bind]. eexists. split; [reflexivity |].
  cbn [mc_prob nb_prob poisson_prob probability recommendation].
  repeat split; try lra.
  unfold recommend. destruct (Rge_dec _ 50) as [_ | H]; [reflexivity | lra].
Qed.

Lemma labels_differ : over_label <> under_label.
Proof.
  unfold over_label, under_label. discriminate.
Qed.

(** C5.  The recommendation of a call is the over label (['大分']) exactly
    when the fused probability is at least 50 and the under label (['小分'])
    otherwise; a fused probability of exactly 50 gives the over label. *)
Theorem C5_recommendation rs home away target res :
  simulate_game rs home away target = Ok res ->
  (recommendation res = over_label <-> probability res >= 50) /\
  (recommendation res = under_label <-> ~ probability res >= 50) /\
  (probability res = 50 -> recommendation res = over_label).
Proof.
  intros Hres.
  destruct (simulate_game_inv rs home away target res Hres)
    as (_ & _ & _ & _ & _ & _ & _ & _ & Hrec).
  rewrite Hrec. unfold recommend.
  pose proof labels_differ as Hd.
  destruct (Rge_dec (probability res) 50) as [Hge | Hlt].
  - repeat split; intros; try assumption; try reflexivity; contradiction.
  - repeat split; intros; try assumption; try reflexivity; try lra;
      exfalso; apply Hd; congruence.
Qed.

Lemma C5_recommendation_witness :
  exists res,
    simulate_game rs_half home0 away0 225.5 = Ok res /\
    probability res = 50 /\
    recommendation res = over_label.
Proof.
  destruct simulate_game_half as (res & Hres & _ & _ & _ & Hp & _).
  exists res. split; [exact Hres |]. split; [exact Hp |].
  exact (proj2 (proj2 (C5_recommendation rs_half home0 away0 225.5 res Hres))
           Hp).
Defined.

(** ** Claims about the result ranges *)

(** C6.  For valid team statistics every result of [simulate_game] has a
    fused probability in [0, 100] and a star rating in [1, 5], and a result
    is returned whenever the two expected scores are within the Poisson
    sampler's rate limit.  A rating input whose unrounded score is at most 1
    (in particular [prob = 0] with a large negative [meanDiff]) is rated
    exactly 1, and one whose unrounded score is at least 5 is rated exactly
    5, provided the power of a builtin-float probability does not
    overflow. *)
Theorem C6_result_ranges :
  (forall rs home away target res,
     Spec.valid_input home away target ->
     simulate_game rs home away target = Ok res ->
     0 <= probability res <= 100 /\
     exists s, stars res = Fin s /\ 1 <= s <= 5) /\
  (forall rs home away target,
     Spec.valid_input home away target ->
     weighted_score home (allow away) <= POISSON_LAM_MAX ->
     weighted_score away (allow home) <= POISSON_LAM_MAX ->
     exists res, simulate_game rs home away target = Ok res) /\
  (forall k md oc v ts,
     0 <= v ->
     0.5 + Spec.adjustment md oc v ts <= 1 ->
     calculate k (Fin 0) (Fin md) (Fin oc) (Fin v) (Fin ts) = Ok (Fin 1)) /\
  (forall k p md oc v ts,
     0 <= p -> 0 <= v -> pow_fits k (p / 20) 1.5 ->
     5 <= Spec.base p + Spec.adjustment md oc v ts ->
     calculate k (Fin p) (Fin md) (Fin oc) (Fin v) (Fin ts) = Ok (Fin 5)).
Proof.
  split; [| split; [| split]].
  - intros rs home away target res _ Hres.
    destruct (simulate_game_inv rs home away target res Hres)
      as (_ & _ & _ & [b1 H1] & [b2 H2] & [b3 H3] & Hp & Hs & _).
    split.
    + rewrite Hp, H1, H2, H3.
      pose proof (percent_range b1). pose proof (percent_range b2).
      pose proof (percent_range b3). lra.
    + destruct (calculate_total_numpy (Fin (probability res))
                  (Fin (mean_diff (combined_avg res) target))
                  (Fin (over_consistency home away))
                  (Fin (volatility home))
                  (Fin (trend_strength home away))) as [s [Hs' Hr]].
      rewrite Hs in Hs'. apply Ok_inj in Hs'.
      exists s. split; [exact Hs' | exact Hr].
  - intros rs home away target (Hh & Ha & _) Bh Ba.
    now apply simulate_game_valid.
  - intros k md oc v ts Hv Hlow.
    rewrite calculate_fin by solve_fits. do 2 f_equal.
    rewrite base_zero.
    assert (Hle : 0.5 + Spec.adjustment md oc v ts <= IZR 10 / 10) by lra.
    apply round1_le in Hle.
    solve_clamp.
  - intros k p md oc v ts Hp Hv Hfit Hhigh.
    rewrite calculate_fin by solve_fits. do 2 f_equal.
    assert (Hge : IZR 50 / 10 <= Spec.base p + Spec.adjustment md oc v ts)
      by lra.
    apply round1_ge in Hge.
    solve_clamp.
Qed.

Lemma C6_result_ranges_witness :
  (exists res s,
     simulate_game rs_const home0 away0 225.5 = Ok res /\
     0 <= probability res <= 100 /\
     stars res = Fin s /\ 1 <= s <= 5) /\
  calculate PyFloat (Fin 0) (Fin (-100)) (Fin 0) (Fin 0) (Fin 0)
    = Ok (Fin 1) /\
  calculate PyFloat (Fin 100) (Fin 100) (Fin 0) (Fin 0) (Fin 0)
    = Ok (Fin 5).
Proof.
  destruct C6_result_ranges as (Hrange & Hsim & Hlow & Hhigh).
  assert (Hvalid : Spec.valid_input home0 away0 225.5).
  { unfold Spec.valid_input.
    split; [exact home0_valid | split; [exact away0_valid | lra]]. }
  split; [| split].
  - destruct (Hsim rs_const home0 away0 225.5 Hvalid) as [res Hres];
      [pose proof POISSON_LAM_MAX_lower; unfold weighted_score; cbn; lra .. |].
    destruct (Hrange rs_const home0 away0 225.5 res Hvalid Hres)
      as (Hp & s & Hs & Hr).
    exists res, s. split; [exact Hres | split; [exact Hp |]].
    split; [exact Hs | exact Hr].
  - apply Hlow; [lra |].
    unfold Spec.adjustment. replace (1 + 0) with 1 by lra. rewrite ln_1. lra.
  - apply Hhigh; [lra | lra | apply pow_fits_bounded; lra |].
    pose proof (base_bounds 100).
    unfold Spec.adjustment. replace (1 + 0) with 1 by lra. rewrite ln_1. lra.
Defined.

(** ** Claims about non-finite rating inputs *)

Lemma calculate_nan_mean_diff (k : numkind) :
  calculate k (Fin 50) NaN (Fin 0) (Fin 0) (Fin 0) = Ok (Fin 1).
Proof.
  unfold calculate. calc_base k 50.
  rewrite log1p_fin by lra.
  cbn [fmul fadd fsub fneg py_round]. unfold py_max, py_min, flt.
  destruct (Rlt_dec 1 5); [reflexivity | lra].
Qed.

Lemma calculate_inf_mean_diff (k : numkind) :
  calculate k (Fin 50) PInf (Fin 0) (Fin 0) (Fin 0) = Ok (Fin 5).
Proof.
  unfold calculate. calc_base k 50.
  rewrite log1p_fin by lra.
  cbn [fmul]. unfold mul_inf.
  destruct (Rlt_dec 0 0.8); [| lra].
  cbn [fadd fsub fneg py_round]. reflexivity.
Qed.

(** C7 (counterexample).  A [nan] and an infinite [mean_diff] are not
    rejected: the call raises nothing and returns the ratings 1 and 5. *)
Lemma C7_nonfinite_input_is_rated :
  ~ is_finite NaN /\ ~ is_finite PInf /\
  forall k,
    ~ raises (calculate k (Fin 50) NaN (Fin 0) (Fin 0) (Fin 0)) /\
    ~ raises (calculate k (Fin 50) PInf (Fin 0) (Fin 0) (Fin 0)) /\
    calculate k (Fin 50) NaN (Fin 0) (Fin 0) (Fin 0) = Ok (Fin 1) /\
    calculate k (Fin 50) PInf (Fin 0) (Fin 0) (Fin 0) = Ok (Fin 5).
Proof.
  split; [exact (fun H => H) | split; [exact (fun H => H) |]].
  intros k. rewrite calculate_nan_mean_diff, calculate_inf_mean_diff.
  repeat split; exact (fun H => H).
Qed.

(** C7 (amended).  [calculate] has no input guard against non-finite
    values.  Whenever a finite [prob] is non-negative and, for a builtin
    float, its power does not overflow ([pow_fits]: up to about 6.4e206),
    the call returns a finite rating between 1 and 5: for all finite
    arguments, and equally when an argument is [nan] or infinite. *)
Theorem C7_calculate_total (k : numkind)
    (prob mean_diff over_consistency volatility trend_strength : float64) :
  (forall p, prob = Fin p -> 0 <= p /\ pow_fits k (p / 20) 1.5) ->
  exists r,
    calculate k prob mean_diff over_consistency volatility trend_strength
    = Ok (Fin r) /\
    1 <= r <= 5.
Proof.
  intros Hprob. unfold calculate.
  destruct (base_not_negative k prob Hprob) as (pw & b & Hpw & Hb).
  rewrite Hpw. cbn [bind]. rewrite Hb. cbn [bind].
  set (adjustments := fsub _ _).
  destruct (clamp_total (py_round (fadd b adjustments) 1)) as [r [Hr Hrange]].
  exists r. rewrite Hr. split; [reflexivity | exact Hrange].
Qed.

Lemma C7_calculate_total_witness :
  exists r,
    calculate PyFloat (Fin 50) NaN (Fin 0.05) NInf PInf = Ok (Fin r) /\
    1 <= r <= 5.
Proof.
  apply (C7_calculate_total PyFloat (Fin 50) NaN (Fin 0.05) NInf PInf).
  intros p Hp. apply Fin_inj in Hp. subst p.
  split; [lra | apply pow_fits_bounded; lra].
Defined.

(** ** Claims about the derived signals *)

Lemma volatility_closed (home : TeamStats) :
  volatility home = Rabs (avg home - allow home) / 2.
Proof.
  unfold volatility. now rewrite np_std_pair, populationStdDev2_closed.
Qed.

(** With scoring 110 and allowing 108 the volatility is 1; a sample
    standard deviation (divisor 1) would be [sqrt 2]. *)
Example volatility_home0 : volatility home0 = 1.
Proof.
  rewrite volatility_closed. cbn [avg allow home0].
  unfold Rabs. destruct (Rcase_abs _); lra.
Qed.

(** C8.  The signals handed to the rating are
    [meanDiff = (combinedAverage - target) / 5],
    [overConsistency = home.over_rate + away.over_rate - 1],
    [volatility], the population standard deviation (divisor 2) of
    [[home.avg, home.allow]] and hence [|home.avg - home.allow| / 2], from
    the home team only, and [trendStrength = home.over_rate - away.over_rate]. *)
Theorem C8_derived_signals rs home away target res :
  simulate_game rs home away target = Ok res ->
  mean_diff (combined_avg res) target = (combined_avg res - target) / 5 /\
  over_consistency home away = over_rate home + over_rate away - 1 /\
  volatility home = Spec.populationStdDev2 (avg home) (allow home) /\
  volatility home = Rabs (avg home - allow home) / 2 /\
  trend_strength home away = over_rate home - over_rate away /\
  calculate NpFloat64 (Fin (probability res))
    (Fin (Spec.meanDiff (combined_avg res) target))
    (Fin (Spec.overConsistency home away))
    (Fin (Spec.populationStdDev2 (avg home) (allow home)))
    (Fin (Spec.trendStrength home away))
  = Ok (stars res).
Proof.
  intros Hres.
  destruct (simulate_game_inv rs home away target res Hres)
    as (_ & _ & _ & _ & _ & _ & _ & Hs & _).
  repeat split; try reflexivity.
  - apply np_std_pair.
  - apply volatility_closed.
  - rewrite <- Hs. unfold volatility. rewrite np_std_pair. reflexivity.
Qed.

Lemma C8_derived_signals_witness :
  exists res,
    simulate_game rs_const home0 away0 225.5 = Ok res /\
    volatility home0 = Rabs (avg home0 - allow home0) / 2 /\
    calculate NpFloat64 (Fin (probability res))
      (Fin (Spec.meanDiff (combined_avg res) 225.5))
      (Fin (Spec.overConsistency home0 away0))
      (Fin (Spec.populationStdDev2 (avg home0) (allow home0)))
      (Fin (Spec.trendStrength home0 away0))
    = Ok (stars res).
Proof.
  destruct (simulate_game_home0 rs_const 225.5) as [res Hres].
  exists res. split; [exact Hres |].
  destruct (C8_derived_signals rs_const home0 away0 225.5 res Hres)
    as (_ & _ & _ & Hv & _ & Hs).
  split; [exact Hv | exact Hs].
Defined.

(** ** Relational claims *)

(** C9.  With the away team and the target fixed, two valid home teams
    that differ only by a larger [avg] in the second give, on the two
    returned results, a home score and a combined average that are no
    smaller for the second. *)
Theorem C9_home_avg_monotone rs1 rs2 home1 home2 away target r1 r2 :
  Spec.valid_team home1 -> Spec.valid_team home2 -> Spec.valid_team away ->
  allow home2 = allow home1 ->
  over_rate home2 = over_rate home1 ->
  avg home1 <= avg home2 ->
  simulate_game rs1 home1 away target = Ok r1 ->
  simulate_game rs2 home2 away target = Ok r2 ->
  home_score r1 <= home_score r2 /\
  combined_avg r1 <= combined_avg r2.
Proof.
  intros H1 H2 Ha Hallow Hrate Havg Hr1 Hr2.
  destruct (simulate_game_inv rs1 home1 away target r1 Hr1)
    as (Hh1 & Ha1 & Hc1 & _).
  destruct (simulate_game_inv rs2 home2 away target r2 Hr2)
    as (Hh2 & Ha2 & Hc2 & _).
  destruct H1 as (_ & _ & Hr & _).
  assert (Hhome : home_score r1 <= home_score r2).
  { rewrite Hh1, Hh2. unfold weighted_score. rewrite Hrate.
    apply Rmult_le_compat_r; lra. }
  split; [exact Hhome |].
  rewrite Hc1, Hc2, Ha1, Ha2, Hallow. lra.
Qed.

Lemma C9_home_avg_monotone_witness :
  exists r1 r2,
    simulate_game rs_const home0 away0 225.5 = Ok r1 /\
    simulate_game rs_half home0_plus away0 225.5 = Ok r2 /\
    home_score r1 <= home_score r2 /\
    combined_avg r1 <= combined_avg r2.
Proof.
  destruct (simulate_game_home0 rs_const 225.5) as [r1 Hr1].
  destruct (simulate_game_ok rs_half home0_plus away0 225.5) as [r2 Hr2];
    [pose proof POISSON_LAM_MAX_lower; unfold weighted_score; cbn; lra .. |].
  exists r1, r2. split; [exact Hr1 | split; [exact Hr2 |]].
  apply (C9_home_avg_monotone rs_const rs_half home0 home0_plus away0 225.5
           r1 r2).
  - exact home0_valid.
  - unfold Spec.valid_team, home0_plus. cbn. lra.
  - exact away0_valid.
  - reflexivity.
  - reflexivity.
  - cbn. lra.
  - exact Hr1.
  - exact Hr2.
Defined.

(** C10.  Exchanging the home and away arguments exchanges the home and
    away scores and leaves the combined average unchanged, whereas the
    volatility and the trend strength are not symmetric: on the example
    game they change with the exchange. *)
Theorem C10_swap_symmetry :
  (forall rs1 rs2 home away target r1 r2,
     simulate_game rs1 home away target = Ok r1 ->
     simulate_game rs2 away home target = Ok r2 ->
     home_score r2 = away_score r1 /\
     away_score r2 = home_score r1 /\
     combined_avg r2 = combined_avg r1) /\
  volatility away0 <> volatility home0 /\
  trend_strength away0 home0 <> trend_strength home0 away0.
Proof.
  split; [| split].
  - intros rs1 rs2 home away target r1 r2 Hr1 Hr2.
    destruct (simulate_game_inv rs1 home away target r1 Hr1)
      as (Hh1 & Ha1 & Hc1 & _).
    destruct (simulate_game_inv rs2 away home target r2 Hr2)
      as (Hh2 & Ha2 & Hc2 & _).
    rewrite Hc1, Hc2, Hh1, Hh2, Ha1, Ha2.
    split; [reflexivity | split; [reflexivity | apply Rplus_comm]].
  - rewrite !volatility_closed. cbn [avg allow home0 away0].
    unfold Rabs. destruct (Rcase_abs _); destruct (Rcase_abs _); lra.
  - unfold trend_strength. cbn [over_rate home0 away0]. lra.
Qed.

Lemma C10_swap_symmetry_witness :
  exists r1 r2,
    simulate_game rs_const home0 away0 225.5 = Ok r1 /\
    simulate_game rs_const away0 home0 225.5 = Ok r2 /\
    home_score r2 = away_score r1 /\
    away_score r2 = home_score r1 /\
    combined_avg r2 = combined_avg r1.
Proof.
  destruct (simulate_game_home0 rs_const 225.5) as [r1 Hr1].
  destruct (simulate_game_swapped0 rs_const 225.5) as [r2 Hr2].
  exists r1, r2. split; [exact Hr1 | split; [exact Hr2 |]].
  exact (proj1 C10_swap_symmetry rs_const rs_const home0 away0 225.5
           r1 r2 Hr1 Hr2).
Defined.

(** * Further properties of the engine *)

(** ** Rounding is monotone and breaks ties to even *)

Lemma Int_part_mono (x y : R) : x <= y -> (Int_part x <= Int_part y)%Z.
Proof.
  intros Hxy. destruct (Int_part_bounds x) as [Hx _].
  destruct (Int_part_bounds y) as [_ Hy].
  apply Z.lt_succ_r, lt_IZR. unfold Z.succ. rewrite plus_IZR. lra.
Qed.

Lemma rint_mono (x y : R) : x <= y -> (rint x <= rint y)%Z.
Proof.
  intros Hxy. destruct (Req_dec_T x y) as [-> | Hne]; [apply Z.le_refl |].
  pose proof (Int_part_mono x y Hxy) as Hn.
  destruct (Int_part_bounds x) as [Hx0 Hx1].
  destruct (Int_part_bounds y) as [Hy0 Hy1].
  destruct (rint_cases x) as [[-> Hxle] | [-> Hxge]];
    destruct (rint_cases y) as [[-> Hyle] | [-> Hyge]]; try lia.
  assert (Hlt : (Int_part x < Int_part y)%Z); [| lia].
  apply lt_IZR. lra.
Qed.

Lemma round1_mono (x y : R) : x <= y -> Spec.round1 x <= Spec.round1 y.
Proof.
  intros Hxy. unfold Spec.round1.
  assert (H : (rint (x * 10) <= rint (y * 10))%Z) by (apply rint_mono; lra).
  apply IZR_le in H. lra.
Qed.

Lemma rint_half (k : Z) :
  rint (IZR k + 1 / 2) = if Z.even k then k else (k + 1)%Z.
Proof.
  assert (Hi : Int_part (IZR k + 1 / 2) = k).
  { symmetry. apply Int_part_spec. lra. }
  unfold rint. rewrite Hi.
  destruct (Rlt_dec _ _) as [H | _]; [lra |].
  destruct (Rlt_dec _ _) as [H | _]; [lra |].
  reflexivity.
Qed.

(** ** The rating has one decimal *)

Lemma clamp_round_tenths (x : float64) :
  exists m : Z,
    py_min (Fin 5) (py_max (Fin 1) (py_round x 1)) = Fin (IZR m / 10) /\
    (10 <= m <= 50)%Z.
Proof.
  destruct x as [r | | |].
  - rewrite py_round_1, py_max_fin, py_min_fin. unfold Spec.round1.
    set (n := rint (r * 10)).
    destruct (Z_le_gt_dec n 10) as [Hlo | Hlo].
    + exists 10%Z. split; [| lia]. f_equal.
      apply IZR_le in Hlo. solve_clamp.
    + destruct (Z_le_gt_dec 50 n) as [Hhi | Hhi].
      * exists 50%Z. split; [| lia]. f_equal.
        apply IZR_le in Hhi. solve_clamp.
      * exists n. split; [| lia]. f_equal.
        assert (H1 : IZR 10 < IZR n) by (apply IZR_lt; lia).
        assert (H2 : IZR n < IZR 50) by (apply IZR_lt; lia).
        solve_clamp.
  - exists 50%Z. split; [| lia]. cbn [py_round].
    unfold py_max, py_min, flt. f_equal. lra.
  - exists 10%Z. split; [| lia]. cbn [py_round].
    unfold py_max, py_min, flt.
    destruct (Rlt_dec 1 5); [f_equal; lra | lra].
  - exists 10%Z. split; [| lia]. cbn [py_round].
    unfold py_max, py_min, flt.
    destruct (Rlt_dec 1 5); [f_equal; lra | lra].
Qed.

(** X1.  Whenever [calculate] returns, the rating is a whole number of
    tenths between 1.0 and 5.0: one of 41 values. *)
Theorem X1_rating_one_decimal (k : numkind)
    (prob md oc v ts val : float64) :
  calculate k prob md oc v ts = Ok val ->
  exists m : Z, val = Fin (IZR m / 10) /\ (10 <= m <= 50)%Z.
Proof.
  intros Hval.
  destruct (calculate_clamped k prob md oc v ts val Hval) as [x ->].
  apply clamp_round_tenths.
Qed.

Lemma X1_rating_one_decimal_witness :
  exists m : Z, Fin 2.3 = Fin (IZR m / 10) /\ (10 <= m <= 50)%Z.
Proof.
  exact (X1_rating_one_decimal NpFloat64 (Fin 20) (Fin 1) (Fin 0.05) (Fin 0)
           (Fin 0.05) (Fin 2.3) calculate_mid).
Defined.

(** ** The rating is monotone in its inputs *)

Lemma power_mono (x y : R) :
  0 <= x <= y -> Spec.power x 1.5 <= Spec.power y 1.5.
Proof.
  intros [Hx Hxy]. rewrite !power_three_halves by lra.
  pose proof (sqrt_pos x) as Hsx.
  assert (Hs : sqrt x <= sqrt y) by (apply sqrt_le_1_alt; lra).
  nra.
Qed.

Lemma base_mono (p q : R) : 0 <= p <= q -> Spec.base p <= Spec.base q.
Proof.
  intros Hpq. unfold Spec.base.
  assert (H : Spec.power (p / 20) 1.5 <= Spec.power (q / 20) 1.5)
    by (apply power_mono; lra).
  solve_clamp.
Qed.

Lemma ln_mono (x y : R) : 0 < x <= y -> ln x <= ln y.
Proof.
  intros [Hx [Hlt | ->]]; [| lra].
  apply Rlt_le, ln_increasing; assumption.
Qed.

(** X2.  The rating never decreases when the probability, the mean
    difference, the over consistency or the volatility grows, or when the
    trend strength shrinks, as long as the power of the larger probability
    does not overflow as a builtin float. *)
Theorem X2_rating_monotone (k : numkind)
    (p p' md md' oc oc' v v' ts ts' : R) :
  0 <= p <= p' -> md <= md' -> oc <= oc' -> 0 <= v <= v' -> ts' <= ts ->
  pow_fits k (p' / 20) 1.5 ->
  exists r r',
    calculate k (Fin p) (Fin md) (Fin oc) (Fin v) (Fin ts) = Ok (Fin r) /\
    calculate k (Fin p') (Fin md') (Fin oc') (Fin v') (Fin ts') = Ok (Fin r') /\
    r <= r'.
Proof.
  intros Hp Hmd Hoc Hv Hts Hfit'.
  assert (Hfit : pow_fits k (p / 20) 1.5)
    by (apply (pow_fits_mono k (p / 20) (p' / 20)); [lra | exact Hfit']).
  rewrite !calculate_fin by solve_fits.
  eexists. eexists. split; [reflexivity | split; [reflexivity |]].
  assert (Hb : Spec.base p <= Spec.base p') by (apply base_mono; lra).
  assert (Hl : ln (1 + v) <= ln (1 + v')) by (apply ln_mono; lra).
  assert (Hr : Spec.round1 (Spec.base p + Spec.adjustment md oc v ts)
               <= Spec.round1 (Spec.base p' + Spec.adjustment md' oc' v' ts')).
  { apply round1_mono. unfold Spec.adjustment. lra. }
  solve_clamp.
Qed.

Lemma X2_rating_monotone_witness :
  exists r r',
    calculate PyFloat (Fin 40) (Fin 0) (Fin 0) (Fin 1) (Fin 0.2) = Ok (Fin r) /\
    calculate PyFloat (Fin 60) (Fin 1) (Fin 0.1) (Fin 2) (Fin 0.1)
      = Ok (Fin r') /\
    r <= r'.
Proof.
  apply (X2_rating_monotone PyFloat 40 60 0 1 0 0.1 1 2 0.2 0.1);
    try lra.
  apply pow_fits_bounded. lra.
Defined.

(** ** Where the probability stops mattering *)

Lemma base_saturated (p : R) : 55 <= p -> Spec.base p = 5.
Proof.
  intros Hp. unfold Spec.base. rewrite power_three_halves by lra.
  assert (Hs : 1.65 <= sqrt (p / 20)).
  { rewrite <- (sqrt_square 1.65) by lra. apply sqrt_le_1_alt. lra. }
  assert (Hx : 2.75 <= p / 20) by lra.
  assert (Hprod : 4.5 <= p / 20 * sqrt (p / 20)) by nra.
  solve_clamp.
Qed.

Lemma base_below_cap (p : R) : 0 <= p <= 54 -> Spec.base p < 5.
Proof.
  intros Hp. unfold Spec.base. rewrite power_three_halves by lra.
  pose proof (sqrt_pos (p / 20)) as Hs0.
  assert (Hs : sqrt (p / 20) <= 1.65).
  { rewrite <- (sqrt_square 1.65) by lra. apply sqrt_le_1_alt. lra. }
  assert (Hprod : p / 20 * sqrt (p / 20) < 4.5) by nra.
  solve_clamp.
Qed.

(** X3.  From a probability of 55 on the base is capped at 5, so the
    rating no longer depends on the probability: with the same signals,
    whatever they are, any two probabilities of at least 55 whose power does
    not overflow as a builtin float are rated alike. *)
Theorem X3_probability_saturates (k : numkind) (p q : R)
    (md oc v ts : float64) :
  55 <= p -> 55 <= q ->
  pow_fits k (p / 20) 1.5 -> pow_fits k (q / 20) 1.5 ->
  calculate k (Fin p) md oc v ts = calculate k (Fin q) md oc v ts.
Proof.
  intros Hp Hq Fp Fq. unfold calculate.
  destruct (py_pow_fin k p) as (pw1 & -> & Hb1); [lra | exact Fp |].
  destruct (py_pow_fin k q) as (pw2 & -> & Hb2); [lra | exact Fq |].
  cbn [bind]. rewrite Hb1, Hb2.
  now rewrite !base_saturated.
Qed.

Lemma X3_probability_saturates_witness :
  calculate PyFloat (Fin 55) (Fin (-2)) NaN (Fin 3) PInf
  = calculate PyFloat (Fin 100) (Fin (-2)) NaN (Fin 3) PInf.
Proof.
  apply (X3_probability_saturates PyFloat 55 100);
    [lra | lra | apply pow_fits_bounded; lra | apply pow_fits_bounded; lra].
Defined.

(** ** A negative probability *)

(** X4.  A negative [numpy.float64] probability is not rejected: its power
    is [nan], [min(5, nan)] is 5, and the call is rated exactly like a
    probability of 100. *)
Theorem X4_negative_numpy_probability (p : R) (md oc v ts : float64) :
  p < 0 ->
  calculate NpFloat64 (Fin p) md oc v ts
  = calculate NpFloat64 (Fin 100) md oc v ts.
Proof.
  intros Hp. unfold calculate.
  destruct (py_pow_fin NpFloat64 100) as (pw & -> & Hb); [lra | exact I |].
  cbn [bind]. rewrite Hb, base_saturated by lra.
  unfold fdiv, fmul, py_pow.
  destruct (Rlt_dec 0 (p * / 20)) as [H | _]; [lra |].
  destruct (Rlt_dec (p * / 20) 0) as [_ | H]; [| lra].
  reflexivity.
Qed.

Lemma X4_negative_numpy_probability_witness :
  calculate NpFloat64 (Fin (-30)) (Fin 0) (Fin 0) (Fin 0) (Fin 0)
  = calculate NpFloat64 (Fin 100) (Fin 0) (Fin 0) (Fin 0) (Fin 0).
Proof.
  apply (X4_negative_numpy_probability (-30)). lra.
Defined.


(** ** A volatility of -1 or less *)

(** X6.  With a volatility of at most -1 the logarithm is [-inf] or [nan],
    and every finite call with a non-negative probability whose power does
    not overflow as a builtin float is rated 1. *)
Theorem X6_volatility_below_domain (k : numkind) (p md oc v ts : R) :
  0 <= p -> pow_fits k (p / 20) 1.5 -> v <= -1 ->
  calculate k (Fin p) (Fin md) (Fin oc) (Fin v) (Fin ts) = Ok (Fin 1).
Proof.
  intros Hp Hfit Hv. unfold calculate. calc_base k p. unfold log1p.
  destruct (Rlt_dec (-1) v) as [H | _]; [lra |].
  destruct (Rlt_dec v (-1)) as [_ | _].
  - cbn [fmul fadd fsub fneg py_round]. unfold py_max, py_min, flt.
    destruct (Rlt_dec 1 5); [reflexivity | lra].
  - cbn [fmul]. unfold mul_inf.
    destruct (Rlt_dec 0 0.4); [| lra].
    cbn [fadd fsub fneg py_round]. unfold py_max, py_min, flt.
    destruct (Rlt_dec 1 5); [reflexivity | lra].
Qed.

Lemma X6_volatility_below_domain_witness :
  calculate PyFloat (Fin 100) (Fin 50) (Fin 1) (Fin (-1)) (Fin (-1))
  = Ok (Fin 1).
Proof.
  apply (X6_volatility_below_domain PyFloat 100 50 1 (-1) (-1));
    [lra | apply pow_fits_bounded; lra | lra].
Defined.

(** * Further properties of simulate_game *)

Section SimulateMore.

Variable rs : RandomSource.

Lemma generate_nb_zero_division (call : nat) (mean : R) :
  mean = - NB_R -> generate_nb rs call mean = Raise ZeroDivisionError.
Proof.
  intros ->. unfold generate_nb.
  destruct (Req_dec_T (NB_R + - NB_R) 0) as [_ | H]; [reflexivity | lra].
Qed.

Lemma generate_nb_domain_error (call : nat) (mean : R) :
  mean < 0 -> mean <> - NB_R -> generate_nb rs call mean = Raise ValueError.
Proof.
  intros Hneg Hne.
  pose proof (generate_nb_negative rs call mean Hneg) as Hr.
  unfold generate_nb, nbinom_rvs in *.
  destruct (Req_dec_T (NB_R + mean) 0) as [H0 | _]; [lra |].
  destruct (Rlt_dec 0 NB_R); [| reflexivity].
  destruct (Rlt_dec 0 _); [| reflexivity].
  destruct (Rle_dec _ 1); [contradiction | reflexivity].
Qed.

Lemma generate_nb_form (call : nat) (mean : R) (xs : list Z) :
  generate_nb rs call mean = Ok xs ->
  xs = map (fun i =>
              int64_wrap
                (nbinom_variate rs call NB_R (NB_R / (NB_R + mean)) i))
           (seq 0 NUM_SIMULATIONS).
Proof.
  unfold generate_nb, nbinom_rvs.
  destruct (Req_dec_T _ 0); [discriminate |].
  destruct (Rlt_dec 0 NB_R); [| discriminate].
  destruct (Rlt_dec 0 _); [| discriminate].
  destruct (Rle_dec _ 1); [| discriminate].
  intros H. apply Ok_inj in H. now subst xs.
Qed.

Lemma generate_poisson_form (call : nat) (mean : R) (xs : list Z) :
  generate_poisson rs call mean = Ok xs ->
  xs = map (fun i => int64_wrap (poisson_variate rs call mean i))
           (seq 0 NUM_SIMULATIONS).
Proof.
  unfold generate_poisson, poisson_rvs.
  destruct (Rle_dec 0 mean); [| discriminate].
  destruct (Rle_dec mean POISSON_LAM_MAX); [| discriminate].
  intros H. apply Ok_inj in H. now subst xs.
Qed.

Lemma generate_nb_length (call : nat) (mean : R) (xs : list Z) :
  generate_nb rs call mean = Ok xs -> List.length xs = NUM_SIMULATIONS.
Proof.
  intros H. rewrite (generate_nb_form call mean xs H).
  now rewrite length_map, length_seq.
Qed.

Lemma generate_poisson_length (call : nat) (mean : R) (xs : list Z) :
  generate_poisson rs call mean = Ok xs -> List.length xs = NUM_SIMULATIONS.
Proof.
  intros H. rewrite (generate_poisson_form call mean xs H).
  now rewrite length_map, length_seq.
Qed.

Variables home away : TeamStats.
Variable target : R.

Lemma simulate_game_negative_away :
  0 <= weighted_score home (allow away) ->
  weighted_score away (allow home) < 0 ->
  raises (simulate_game rs home away target).
Proof.
  intros Hh Ha. unfold simulate_game. cbv zeta.
  rewrite (generate_nb_eq rs 0 _ Hh). cbn [bind].
  pose proof (generate_nb_negative rs 1 _ Ha) as Hr.
  destruct (generate_nb rs 1 _) as [xs | e]; [contradiction | exact I].
Qed.

(** An expected score above the Poisson rate limit makes the call raise
    in [generate_poisson], after both negative-binomial samples. *)
Lemma simulate_game_rate_too_large :
  0 <= weighted_score home (allow away) ->
  0 <= weighted_score away (allow home) ->
  POISSON_LAM_MAX < weighted_score home (allow away) \/
  POISSON_LAM_MAX < weighted_score away (allow home) ->
  simulate_game rs home away target = Raise ValueError.
Proof.
  intros Hh Ha Hbig. unfold simulate_game. cbv zeta.
  rewrite (generate_nb_eq rs 0 _ Hh), (generate_nb_eq rs 1 _ Ha).
  cbn [bind].
  destruct (Rle_dec (weighted_score home (allow away)) POISSON_LAM_MAX)
    as [Hle | Hgt].
  - rewrite (generate_poisson_eq rs 0 _ (conj Hh Hle)). cbn [bind].
    rewrite (generate_poisson_too_large rs 1); [reflexivity |].
    destruct Hbig as [H | H]; [lra | exact H].
  - rewrite (generate_poisson_too_large rs 0); [reflexivity | lra].
Qed.

(** The count arrays behind the two discrete model probabilities, in terms
    of the draws. *)
Lemma simulate_game_counts (res : SimulationResult) :
  simulate_game rs home away target = Ok res ->
  nb_prob res
    = np_mean_bool (arr_int_gt (arr_add_int
        (map (fun i => int64_wrap (nbinom_variate rs 0 NB_R
                (NB_R / (NB_R + home_score res)) i)) (seq 0 NUM_SIMULATIONS))
        (map (fun i => int64_wrap (nbinom_variate rs 1 NB_R
                (NB_R / (NB_R + away_score res)) i)) (seq 0 NUM_SIMULATIONS)))
        target) * 100 /\
  poisson_prob res
    = np_mean_bool (arr_int_gt (arr_add_int
        (map (fun i => int64_wrap (poisson_variate rs 0 (home_score res) i))
             (seq 0 NUM_SIMULATIONS))
        (map (fun i => int64_wrap (poisson_variate rs 1 (away_score res) i))
             (seq 0 NUM_SIMULATIONS)))
        target) * 100.
Proof.
  unfold simulate_game. cbv zeta.
  destruct (generate_nb rs 0 _) as [nbh | e] eqn:E1; [| discriminate].
  destruct (generate_nb rs 1 _) as [nba | e] eqn:E2; [| discriminate].
  destruct (generate_poisson rs 0 _) as [poh | e] eqn:E3; [| discriminate].
  destruct (generate_poisson rs 1 _) as [poa | e] eqn:E4; [| discriminate].
  cbn [bind].
  destruct (calculate _ _ _ _ _ _) as [s | e]; [| discriminate].
  cbn [bind]. intros H. apply Ok_inj in H. subst res.
  cbn [home_score away_score nb_prob poisson_prob].
  apply generate_nb_form in E1, E2.
  apply generate_poisson_form in E3, E4.
  subst nbh nba poh poa. split; reflexivity.
Qed.

Lemma simulate_game_arrays (res : SimulationResult) :
  simulate_game rs home away target = Ok res ->
  exists nbs pos : list Z,
    List.length nbs = NUM_SIMULATIONS /\
    List.length pos = NUM_SIMULATIONS /\
    mc_prob res
      = np_mean_bool
          (arr_gt (arr_add
             (np_random_normal rs 0 (home_score res) NBA_STD_DEV
                NUM_SIMULATIONS)
             (np_random_normal rs 1 (away_score res) NBA_STD_DEV
                NUM_SIMULATIONS)) target) * 100 /\
    nb_prob res = np_mean_bool (arr_int_gt nbs target) * 100 /\
    poisson_prob res = np_mean_bool (arr_int_gt pos target) * 100.
Proof.
  unfold simulate_game. cbv zeta.
  destruct (generate_nb rs 0 _) as [nbh | e] eqn:E1; [| discriminate].
  destruct (generate_nb rs 1 _) as [nba | e] eqn:E2; [| discriminate].
  destruct (generate_poisson rs 0 _) as [poh | e] eqn:E3; [| discriminate].
  destruct (generate_poisson rs 1 _) as [poa | e] eqn:E4; [| discriminate].
  cbn [bind].
  destruct (calculate _ _ _ _ _ _) as [s | e]; [| discriminate].
  cbn [bind]. intros H. apply Ok_inj in H. subst res.
  cbn [home_score away_score mc_prob nb_prob poisson_prob].
  apply generate_nb_length in E1, E2.
  apply generate_poisson_length in E3, E4.
  exists (arr_add_int nbh nba), (arr_add_int poh poa).
  unfold arr_add_int. rewrite !length_map, !length_combine, E1, E2, E3, E4.
  rewrite Nat.min_id. repeat split; reflexivity.
Qed.

End SimulateMore.

Lemma INR_NUM_SIMULATIONS : INR NUM_SIMULATIONS = 50000.
Proof.
  unfold NUM_SIMULATIONS. apply INR_Z_to_nat. lia.
Qed.

Lemma length_arr_int_gt (xs : list Z) (t : R) :
  List.length (arr_int_gt xs t) = List.length xs.
Proof.
  unfold arr_int_gt. now rewrite length_arr_gt, length_map.
Qed.

(** X7.  [simulate_game] returns a result exactly when both weighted
    expected scores are non-negative and within the Poisson sampler's rate
    limit [POISSON_LAM_MAX] (about 9.2e18); nothing else about the inputs,
    and nothing about the draws, can make it fail. *)
Theorem X7_simulate_game_returns_iff rs home away target :
  (exists res, simulate_game rs home away target = Ok res) <->
  0 <= weighted_score home (allow away) <= POISSON_LAM_MAX /\
  0 <= weighted_score away (allow home) <= POISSON_LAM_MAX.
Proof.
  split.
  - intros [res Hres].
    destruct (Rle_dec 0 (weighted_score home (allow away))) as [Hh | Hh].
    + destruct (Rle_dec 0 (weighted_score away (allow home))) as [Ha | Ha].
      * destruct (Rle_dec (weighted_score home (allow away)) POISSON_LAM_MAX)
          as [Bh | Bh].
        -- destruct (Rle_dec (weighted_score away (allow home))
                       POISSON_LAM_MAX) as [Ba | Ba]; [lra | exfalso].
           rewrite (simulate_game_rate_too_large rs home away target Hh Ha)
             in Hres by (right; lra).
           discriminate.
        -- exfalso.
           rewrite (simulate_game_rate_too_large rs home away target Hh Ha)
             in Hres by (left; lra).
           discriminate.
      * exfalso.
        assert (Hr : raises (simulate_game rs home away target))
          by (apply simulate_game_negative_away; lra).
        rewrite Hres in Hr. exact Hr.
    + exfalso.
      assert (Hr : raises (simulate_game rs home away target))
        by (apply simulate_game_negative_home; lra).
      rewrite Hres in Hr. exact Hr.
  - intros [Hh Ha]. now apply simulate_game_ok.
Qed.

(** X8.  When [simulate_game] fails, the exception comes from a sampler.
    A negative expected score fails in [generate_nb], home before away:
    [ZeroDivisionError] if that score is exactly [-NB_R], [ValueError]
    (the sampler's domain error) otherwise.  With both scores
    non-negative, a score above the Poisson rate limit fails in
    [generate_poisson] with [ValueError]. *)
Theorem X8_simulate_game_exception rs home away target e :
  simulate_game rs home away target = Raise e <->
  (weighted_score home (allow away) < 0 /\
   (weighted_score home (allow away) = - NB_R /\ e = ZeroDivisionError \/
    weighted_score home (allow away) <> - NB_R /\ e = ValueError)) \/
  (0 <= weighted_score home (allow away) /\
   weighted_score away (allow home) < 0 /\
   (weighted_score away (allow home) = - NB_R /\ e = ZeroDivisionError \/
    weighted_score away (allow home) <> - NB_R /\ e = ValueError)) \/
  (0 <= weighted_score home (allow away) /\
   0 <= weighted_score away (allow home) /\
   (POISSON_LAM_MAX < weighted_score home (allow away) \/
    POISSON_LAM_MAX < weighted_score away (allow home)) /\
   e = ValueError).
Proof.
  set (hs := weighted_score home (allow away)).
  set (aw := weighted_score away (allow home)).
  assert (Hhome_zd : hs = - NB_R ->
            simulate_game rs home away target = Raise ZeroDivisionError).
  { intros H. unfold simulate_game. cbv zeta. fold hs.
    now rewrite (generate_nb_zero_division rs 0 hs H). }
  assert (Hhome_ve : hs < 0 -> hs <> - NB_R ->
            simulate_game rs home away target = Raise ValueError).
  { intros H1 H2. unfold simulate_game. cbv zeta. fold hs.
    now rewrite (generate_nb_domain_error rs 0 hs H1 H2). }
  assert (Haway_zd : 0 <= hs -> aw = - NB_R ->
            simulate_game rs home away target = Raise ZeroDivisionError).
  { intros H0 H. unfold simulate_game. cbv zeta. fold hs aw.
    rewrite (generate_nb_eq rs 0 hs H0). cbn [bind].
    now rewrite (generate_nb_zero_division rs 1 aw H). }
  assert (Haway_ve : 0 <= hs -> aw < 0 -> aw <> - NB_R ->
            simulate_game rs home away target = Raise ValueError).
  { intros H0 H1 H2. unfold simulate_game. cbv zeta. fold hs aw.
    rewrite (generate_nb_eq rs 0 hs H0). cbn [bind].
    now rewrite (generate_nb_domain_error rs 1 aw H1 H2). }
  pose proof (simulate_game_rate_too_large rs home away target) as Hlarge.
  fold hs aw in Hlarge.
  assert (HR : 0 < NB_R) by (unfold NB_R; lra).
  split.
  - intros Hraise.
    destruct (Rle_dec 0 hs) as [Hh | Hh].
    + right.
      destruct (Rle_dec 0 aw) as [Ha | Ha].
      * right. split; [exact Hh | split; [exact Ha |]].
        destruct (Rle_dec hs POISSON_LAM_MAX) as [Bh | Bh].
        -- destruct (Rle_dec aw POISSON_LAM_MAX) as [Ba | Ba].
           ++ exfalso.
              destruct (simulate_game_ok rs home away target
                          (conj Hh Bh) (conj Ha Ba)) as [res Hres].
              congruence.
           ++ assert (Hbig : POISSON_LAM_MAX < hs \/ POISSON_LAM_MAX < aw)
                by (right; lra).
              split; [exact Hbig |].
              rewrite (Hlarge Hh Ha Hbig) in Hraise. congruence.
        -- assert (Hbig : POISSON_LAM_MAX < hs \/ POISSON_LAM_MAX < aw)
             by (left; lra).
           split; [exact Hbig |].
           rewrite (Hlarge Hh Ha Hbig) in Hraise. congruence.
      * left. split; [exact Hh |]. split; [lra |].
        destruct (Req_dec_T aw (- NB_R)) as [Heq | Hne].
        -- left. split; [exact Heq |].
           rewrite (Haway_zd Hh Heq) in Hraise. congruence.
        -- right. split; [exact Hne |].
           rewrite (Haway_ve Hh ltac:(lra) Hne) in Hraise. congruence.
    + left. split; [lra |].
      destruct (Req_dec_T hs (- NB_R)) as [Heq | Hne].
      * left. split; [exact Heq |].
        rewrite (Hhome_zd Heq) in Hraise. congruence.
      * right. split; [exact Hne |].
        rewrite (Hhome_ve ltac:(lra) Hne) in Hraise. congruence.
  - intros [[Hneg [[Heq ->] | [Hne ->]]]
           | [(Hh & Hneg & [[Heq ->] | [Hne ->]])
             | (Hh & Ha & Hbig & ->)]].
    + now apply Hhome_zd.
    + now apply Hhome_ve.
    + now apply Haway_zd.
    + now apply Haway_ve.
    + now apply Hlarge.
Qed.

(** ** The sampled probabilities *)

(** X9.  Each of the three model probabilities is a count of exceeding
    draws out of [NUM_SIMULATIONS] (50000), in percent: [k / 500] for a
    natural number [k] of at most [NUM_SIMULATIONS]. *)
Theorem X9_probability_resolution rs home away target res :
  simulate_game rs home away target = Ok res ->
  exists k1 k2 k3 : nat,
    (k1 <= NUM_SIMULATIONS /\ k2 <= NUM_SIMULATIONS
     /\ k3 <= NUM_SIMULATIONS)%nat /\
    mc_prob res = INR k1 / 500 /\
    nb_prob res = INR k2 / 500 /\
    poisson_prob res = INR k3 / 500.
Proof.
  intros Hres.
  destruct (simulate_game_arrays rs home away target res Hres)
    as (nbs & pos & Hn & Hp & -> & -> & ->).
  assert (Hk : forall bs, List.length bs = NUM_SIMULATIONS ->
            (count_occ bool_dec bs true <= NUM_SIMULATIONS)%nat /\
            np_mean_bool bs * 100 = INR (count_occ bool_dec bs true) / 500).
  { intros bs Hlen. split.
    - rewrite <- Hlen. apply count_true_le.
    - unfold np_mean_bool. rewrite Hlen, INR_NUM_SIMULATIONS. lra. }
  destruct (Hk _ (mc_sample_size rs (home_score res) (away_score res) target))
    as [H1 E1].
  destruct (Hk (arr_int_gt nbs target)) as [H2 E2];
    [now rewrite length_arr_int_gt |].
  destruct (Hk (arr_int_gt pos target)) as [H3 E3];
    [now rewrite length_arr_int_gt |].
  eexists. eexists. eexists.
  split; [split; [exact H1 | split; [exact H2 | exact H3]] |].
  split; [exact E1 | split; [exact E2 | exact E3]].
Qed.

Lemma X9_probability_resolution_witness :
  exists res (k1 k2 k3 : nat),
    simulate_game rs_const home0 away0 225.5 = Ok res /\
    (k1 <= NUM_SIMULATIONS /\ k2 <= NUM_SIMULATIONS
     /\ k3 <= NUM_SIMULATIONS)%nat /\
    mc_prob res = INR k1 / 500 /\
    nb_prob res = INR k2 / 500 /\
    poisson_prob res = INR k3 / 500.
Proof.
  destruct (simulate_game_home0 rs_const 225.5) as [res Hres].
  destruct (X9_probability_resolution rs_const home0 away0 225.5 res Hres)
    as (k1 & k2 & k3 & H).
  exists res, k1, k2, k3. split; [exact Hres | exact H].
Defined.

(** X10.  For a negative target, when all count draws are non-negative
    and below [2^62], so that neither a draw nor a pairwise sum wraps
    around as an [int64], the negative-binomial and Poisson models both
    report 100 percent, the fused probability is at least 60 and the
    recommendation is over. *)
Theorem X10_negative_target rs home away target res :
  target < 0 ->
  (forall call n p i, (0 <= nbinom_variate rs call n p i < 2 ^ 62)%Z) ->
  (forall call mu i, (0 <= poisson_variate rs call mu i < 2 ^ 62)%Z) ->
  simulate_game rs home away target = Ok res ->
  nb_prob res = 100 /\ poisson_prob res = 100 /\
  60 <= probability res /\ recommendation res = over_label.
Proof.
  intros Ht Hnbv Hpov Hres.
  destruct (simulate_game_counts rs home away target res Hres) as [Hnb Hpo].
  assert (Hall : forall f g : nat -> Z,
            (forall i, (0 <= f i < 2 ^ 62)%Z) ->
            (forall i, (0 <= g i < 2 ^ 62)%Z) ->
            np_mean_bool (arr_int_gt (arr_add_int
              (map (fun i => int64_wrap (f i)) (seq 0 NUM_SIMULATIONS))
              (map (fun i => int64_wrap (g i)) (seq 0 NUM_SIMULATIONS)))
              target) * 100 = 100).
  { intros f g Hf Hg. unfold np_mean_bool.
    rewrite arr_int_gt_add_map, length_map, count_map_true, length_seq.
    - rewrite INR_NUM_SIMULATIONS. lra.
    - intros i. specialize (Hf i). specialize (Hg i).
      rewrite (int64_wrap_id (f i)), (int64_wrap_id (g i)) by lia.
      rewrite int64_wrap_id by lia.
      assert (H0 : 0 <= IZR (f i + g i)) by (apply IZR_le; lia).
      destruct (Rlt_dec target (IZR (f i + g i))); [reflexivity | lra]. }
  rewrite Hall in Hnb by (intros i; apply Hnbv).
  rewrite Hall in Hpo by (intros i; apply Hpov).
  destruct (simulate_game_inv rs home away target res Hres)
    as (_ & _ & _ & [bs Hmc] & _ & _ & Hprob & _ & Hrec).
  pose proof (percent_range bs) as Hrange.
  assert (H60 : 60 <= probability res) by lra.
  repeat split; try assumption.
  rewrite Hrec. unfold recommend.
  destruct (Rge_dec (probability res) 50); [reflexivity | lra].
Qed.

Lemma X10_negative_target_witness :
  exists res,
    simulate_game rs_half home0 away0 (-5) = Ok res /\
    nb_prob res = 100 /\ poisson_prob res = 100 /\
    60 <= probability res /\ recommendation res = over_label.
Proof.
  destruct (simulate_game_home0 rs_half (-5)) as [res Hres].
  exists res. split; [exact Hres |].
  apply (X10_negative_target rs_half home0 away0 (-5) res).
  - lra.
  - intros call n p i. cbn. lia.
  - intros call mu i. cbn. destruct (Nat.even i); lia.
  - exact Hres.
Defined.

(** X11.  The fused probability lies between the smallest and the largest
    of the three model probabilities; so three models at 50 or more give
    the over label and three models below 50 the under label. *)
Theorem X11_fusion_envelope rs home away target res :
  simulate_game rs home away target = Ok res ->
  Rmin (mc_prob res) (Rmin (nb_prob res) (poisson_prob res))
    <= probability res
    <= Rmax (mc_prob res) (Rmax (nb_prob res) (poisson_prob res)) /\
  (50 <= mc_prob res -> 50 <= nb_prob res -> 50 <= poisson_prob res ->
   recommendation res = over_label) /\
  (mc_prob res < 50 -> nb_prob res < 50 -> poisson_prob res < 50 ->
   recommendation res = under_label).
Proof.
  intros Hres.
  destruct (simulate_game_inv rs home away target res Hres)
    as (_ & _ & _ & _ & _ & _ & Hprob & _ & Hrec).
  rewrite Hrec, Hprob. unfold recommend. split; [| split].
  - unfold Rmin, Rmax. repeat destruct (Rle_dec _ _); lra.
  - intros H1 H2 H3. destruct (Rge_dec _ 50); [reflexivity | lra].
  - intros H1 H2 H3. destruct (Rge_dec _ 50); [lra | reflexivity].
Qed.

Lemma X11_fusion_envelope_witness :
  exists res,
    simulate_game rs_half home0 away0 225.5 = Ok res /\
    Rmin (mc_prob res) (Rmin (nb_prob res) (poisson_prob res))
      <= probability res
      <= Rmax (mc_prob res) (Rmax (nb_prob res) (poisson_prob res)).
Proof.
  destruct simulate_game_half as (res & Hres & _).
  exists res. split; [exact Hres |].
  exact (proj1 (X11_fusion_envelope rs_half home0 away0 225.5 res Hres)).
Defined.

(** ** The negative-binomial parameters *)

(** X12.  For a non-negative expected score the success probability
    [p = NB_R / (NB_R + mean)] lies in (0, 1], the sampler accepts it and
    returns [NUM_SIMULATIONS] draws, and the negative-binomial mean
    [NB_R * (1 - p) / p] of these parameters is the expected score. *)
Theorem X12_nb_mean_matching rs call mean :
  0 <= mean ->
  0 < NB_R / (NB_R + mean) <= 1 /\
  NB_R * (1 - NB_R / (NB_R + mean)) / (NB_R / (NB_R + mean)) = mean /\
  exists xs,
    generate_nb rs call mean = Ok xs /\ List.length xs = NUM_SIMULATIONS.
Proof.
  intros Hm. assert (HR : 0 < NB_R) by (unfold NB_R; lra).
  assert (Hq : 0 < / (NB_R + mean)) by (apply Rinv_0_lt_compat; lra).
  assert (Hone : (NB_R + mean) * / (NB_R + mean) = 1) by (apply Rinv_r; lra).
  split; [| split].
  - unfold Rdiv. split; nra.
  - field. lra.
  - destruct (generate_nb_ok rs call mean Hm) as [xs Hxs].
    exists xs. split; [exact Hxs |].
    exact (generate_nb_length rs call mean xs Hxs).
Qed.

Lemma X12_nb_mean_matching_witness :
  0 < NB_R / (NB_R + 113.57) <= 1 /\
  NB_R * (1 - NB_R / (NB_R + 113.57)) / (NB_R / (NB_R + 113.57)) = 113.57 /\
  exists xs,
    generate_nb rs_const 1 113.57 = Ok xs /\
    List.length xs = NUM_SIMULATIONS.
Proof.
  apply (X12_nb_mean_matching rs_const 1 113.57). lra.
Defined.

(** * Properties of the result page *)

(** ** The bar of stars *)

Lemma length_str_mul_glyph (c : N) (n : Z) :
  List.length (str_mul [c] n) = Z.to_nat n.
Proof.
  unfold str_mul. induction (Z.to_nat n) as [| m IH]; [reflexivity |].
  cbn [List.repeat List.concat List.app List.length]. now rewrite IH.
Qed.

Lemma count_str_mul_glyph (c d : N) (n : Z) :
  count_occ N.eq_dec (str_mul [c] n) d
  = if N.eq_dec c d then Z.to_nat n else 0%nat.
Proof.
  unfold str_mul. induction (Z.to_nat n) as [| m IH].
  - cbn. now destruct (N.eq_dec c d).
  - cbn [List.repeat List.concat List.app count_occ]. rewrite IH.
    destruct (N.eq_dec c d); reflexivity.
Qed.

(** X13.  The bar has exactly five glyphs if and only if the star count is
    between 0 and 5; in that range it holds [stars] filled stars and
    [5 - stars] empty ones.  Outside it the bar grows: a repetition by a
    negative number is empty, not an error. *)
Theorem X13_star_bar_length (stars_n : Z) :
  (List.length (star_bar stars_n) = 5%nat <-> (0 <= stars_n <= 5)%Z) /\
  count_occ N.eq_dec (star_bar stars_n) 9733%N = Z.to_nat stars_n /\
  count_occ N.eq_dec (star_bar stars_n) 9734%N = Z.to_nat (5 - stars_n).
Proof.
  unfold star_bar, BLACK_STAR, WHITE_STAR.
  rewrite length_app, !count_occ_app, !length_str_mul_glyph,
    !count_str_mul_glyph.
  split; [| split].
  - lia.
  - destruct (N.eq_dec 9733 9733) as [_ | H]; [| contradiction].
    destruct (N.eq_dec 9734 9733) as [H | _]; [discriminate | lia].
  - destruct (N.eq_dec 9733 9734) as [H | _]; [discriminate |].
    destruct (N.eq_dec 9734 9734) as [_ | H]; [reflexivity | contradiction].
Qed.

(** ** The explanation lookup *)

(** X14.  Looking an integer key up in [explanation] falls back to the
    empty default exactly when the key is not one of 1, 2, 3, 4, 5: an
    integer key finds the float key of the same value. *)
Theorem X14_explanation_default (key : Z) :
  dict_get explanation (IZR key) ""%string = ""%string <->
  ~ (1 <= key <= 5)%Z.
Proof.
  unfold explanation. cbn [dict_get].
  repeat match goal with
         | |- context [Req_dec_T ?a (IZR key)] =>
             destruct (Req_dec_T a (IZR key)) as [Heq | ?];
             [apply eq_IZR in Heq; subst key;
              split; [discriminate | intros H; exfalso; apply H; lia] |]
         end.
  split; [| reflexivity].
  intros _ Hrange.
  assert (Hk : key = 1%Z \/ key = 2%Z \/ key = 3%Z \/ key = 4%Z \/ key = 5%Z)
    by lia.
  destruct Hk as [-> | [-> | [-> | [-> | ->]]]]; congruence.
Qed.

(** ** Rendering a result *)

Lemma calculate_value_range (k : numkind) (prob md oc v ts val : float64) :
  calculate k prob md oc v ts = Ok val ->
  exists s, val = Fin s /\ 1 <= s <= 5.
Proof.
  intros Hval.
  destruct (calculate_clamped k prob md oc v ts val Hval) as [x ->].
  apply clamp_total.
Qed.

Lemma stars_in_range rs home away target res :
  simulate_game rs home away target = Ok res ->
  exists s, stars res = Fin s /\ 1 <= s <= 5.
Proof.
  intros Hres.
  destruct (simulate_game_inv rs home away target res Hres)
    as (_ & _ & _ & _ & _ & _ & _ & Hs & _).
  exact (calculate_value_range _ _ _ _ _ _ _ Hs).
Qed.

Lemma rint_error (x : R) : Rabs (x - IZR (rint x)) <= 1 / 2.
Proof.
  destruct (Int_part_bounds x) as [Hlo Hhi].
  apply Rabs_le.
  destruct (rint_cases x) as [[-> Hle] | [-> Hge]];
    [| rewrite plus_IZR]; lra.
Qed.

Lemma star_bar_five (stars_n : Z) :
  (0 <= stars_n <= 5)%Z -> List.length (star_bar stars_n) = 5%nat.
Proof.
  intros H. unfold star_bar, BLACK_STAR, WHITE_STAR.
  rewrite length_app, !length_str_mul_glyph. lia.
Qed.

Lemma explanation_found (key : Z) :
  (1 <= key <= 5)%Z -> dict_get explanation (IZR key) ""%string <> ""%string.
Proof.
  intros Hrange.
  assert (Hk : key = 1%Z \/ key = 2%Z \/ key = 3%Z \/ key = 4%Z \/ key = 5%Z)
    by lia.
  unfold explanation. cbn [dict_get].
  destruct Hk as [-> | [-> | [-> | [-> | ->]]]];
    repeat match goal with
           | |- context [Req_dec_T ?a ?b] =>
               destruct (Req_dec_T a b) as [? | ?];
               [try (exfalso; lra) | try (exfalso; congruence)]
           end; discriminate.
Qed.

Lemma render_rating (res : SimulationResult) (s : R) :
  stars res = Fin s -> 1 <= s <= 5 ->
  exists pg,
    render res = Done pg /\
    page_result pg = res /\
    (1 <= page_stars pg <= 5)%Z /\
    Rabs (s - IZR (page_stars pg)) <= 1 / 2 /\
    List.length (page_bar pg) = 5%nat /\
    page_explanation pg <> ""%string.
Proof.
  intros Hs Hrange. unfold render. rewrite Hs. cbn [py_round_int].
  eexists. split; [reflexivity |].
  cbn [page_result page_stars page_bar page_explanation].
  assert (Hk : (1 <= rint s <= 5)%Z).
  { split; [apply rint_ge | apply rint_le]; lra. }
  split; [reflexivity |]. split; [exact Hk |].
  split; [apply rint_error |].
  split.
  - apply star_bar_five. lia.
  - apply explanation_found. exact Hk.
Qed.

(** X15.  Every result of [simulate_game] can be rendered: the rounding of
    the rating never raises, the star count is a nearest integer of the
    rating and lies between 1 and 5, the bar has five glyphs and the
    explanation is one of the five texts, never the empty default. *)
Theorem X15_render_result rs home away target res :
  simulate_game rs home away target = Ok res ->
  exists pg s,
    render res = Done pg /\
    stars res = Fin s /\
    (1 <= page_stars pg <= 5)%Z /\
    Rabs (s - IZR (page_stars pg)) <= 1 / 2 /\
    List.length (page_bar pg) = 5%nat /\
    page_explanation pg <> ""%string.
Proof.
  intros Hres.
  destruct (stars_in_range rs home away target res Hres) as (s & Hs & Hr).
  destruct (render_rating res s Hs Hr) as (pg & Hpg & _ & H1 & H2 & H3 & H4).
  exists pg, s.
  split; [exact Hpg | split; [exact Hs | split; [exact H1 |]]].
  split; [exact H2 | split; [exact H3 | exact H4]].
Qed.

Lemma X15_render_result_witness :
  exists res pg s,
    simulate_game rs_half home0 away0 225.5 = Ok res /\
    render res = Done pg /\
    stars res = Fin s /\
    (1 <= page_stars pg <= 5)%Z /\
    Rabs (s - IZR (page_stars pg)) <= 1 / 2 /\
    List.length (page_bar pg) = 5%nat /\
    page_explanation pg <> ""%string.
Proof.
  destruct simulate_game_half as (res & Hres & _).
  destruct (X15_render_result rs_half home0 away0 225.5 res Hres)
    as (pg & s & H).
  exists res, pg, s. split; [exact Hres | exact H].
Defined.

(** ** The page behind the form *)

Lemma form_teams_valid (f : Form.Values) :
  Form.in_range f ->
  Spec.valid_input (Form.home f) (Form.away f) (Form.target f).
Proof.
  intros (H1 & H2 & H3 & H4 & H5 & H6 & H7).
  destruct H3 as [H3a H3b]. destruct H6 as [H6a H6b].
  apply IZR_le in H3a, H3b, H6a, H6b.
  unfold Spec.valid_input, Spec.valid_team, Form.home, Form.away.
  cbn [avg allow over_rate]. repeat split; lra.
Qed.

Lemma form_score_bounds (f : Form.Values) :
  Form.in_range f ->
  50 <= weighted_score (Form.home f) (allow (Form.away f)) <= 157.5 /\
  50 <= weighted_score (Form.away f) (allow (Form.home f)) <= 157.5.
Proof.
  intros (H1 & H2 & H3 & H4 & H5 & H6 & H7).
  destruct H3 as [H3a H3b]. destruct H6 as [H6a H6b].
  apply IZR_le in H3a, H3b, H6a, H6b.
  unfold weighted_score, Form.home, Form.away. cbn [avg allow over_rate].
  set (u := IZR (Form.home_over f) / 100).
  set (w := IZR (Form.away_over f) / 100).
  assert (Hu : 0 <= u <= 1) by (unfold u; lra).
  assert (Hw : 0 <= w <= 1) by (unfold w; lra).
  repeat split; nra.
Qed.

(** X16.  Whatever the widgets hold within their bounds and whatever is
    drawn, a submitted page never raises: the engine returns a result and
    the page shows between one and five stars in a bar of five glyphs with
    a non-empty explanation.  Each expected score then lies between 50 and
    157.5 and the combined average between 100 and 315.  Without
    submission nothing is computed. *)
Theorem X16_page_never_raises rs (f : Form.Values) :
  Form.in_range f ->
  page rs false f = Done None /\
  exists pg,
    page rs true f = Done (Some pg) /\
    simulate_game rs (Form.home f) (Form.away f) (Form.target f)
      = Ok (page_result pg) /\
    (1 <= page_stars pg <= 5)%Z /\
    List.length (page_bar pg) = 5%nat /\
    page_explanation pg <> ""%string /\
    50 <= home_score (page_result pg) <= 157.5 /\
    50 <= away_score (page_result pg) <= 157.5 /\
    100 <= combined_avg (page_result pg) <= 315.
Proof.
  intros Hf. split; [reflexivity |].
  destruct (form_teams_valid f Hf) as (Hh & Ha & _).
  destruct (form_score_bounds f Hf) as [B1 B2].
  pose proof POISSON_LAM_MAX_lower as HL.
  destruct (simulate_game_valid rs (Form.home f) (Form.away f) (Form.target f)
              Hh Ha) as [res Hres]; [lra | lra |].
  destruct (stars_in_range _ _ _ _ _ Hres) as (s & Hs & Hr).
  destruct (render_rating res s Hs Hr)
    as (pg & Hpg & Hpr & H1 & _ & H3 & H4).
  exists pg. unfold page. rewrite Hres, Hpg, Hpr.
  destruct (simulate_game_inv _ _ _ _ _ Hres) as (E1 & E2 & E3 & _).
  rewrite E3, E1, E2.
  split; [reflexivity | split; [reflexivity | split; [exact H1 |]]].
  split; [exact H3 | split; [exact H4 |]].
  split; [exact B1 | split; [exact B2 | lra]].
Qed.

Lemma form0_in_range : Form.in_range form0.
Proof.
  unfold Form.in_range, form0. cbn. repeat split; try lra; lia.
Qed.

Lemma X16_page_never_raises_witness :
  page rs_half false form0 = Done None /\
  exists pg,
    page rs_half true form0 = Done (Some pg) /\
    simulate_game rs_half (Form.home form0) (Form.away form0)
      (Form.target form0) = Ok (page_result pg) /\
    (1 <= page_stars pg <= 5)%Z /\
    List.length (page_bar pg) = 5%nat /\
    page_explanation pg <> ""%string /\
    50 <= home_score (page_result pg) <= 157.5 /\
    50 <= away_score (page_result pg) <= 157.5 /\
    100 <= combined_avg (page_result pg) <= 315.
Proof.
  exact (X16_page_never_raises rs_half form0 form0_in_range).
Defined.

(** ** Half-star ratings *)

(** A rating of exactly 2.5 is reached. *)
Example calculate_half :
  calculate NpFloat64 (Fin 20) (Fin 1.25) (Fin 0) (Fin 0) (Fin 0)
  = Ok (Fin 2.5).
Proof.
  rewrite calculate_fin by solve_fits. do 2 f_equal.
  rewrite base_20. unfold Spec.adjustment.
  replace (1 + 0) with 1 by lra. rewrite ln_1.
  replace (1.5 + (0.8 * 1.25 + 0.6 * 0 + 0.4 * 0 - 0.3 * 0))
    with (IZR 25 / 10) by lra.
  rewrite round1_tenths. solve_clamp.
Qed.

(** X17.  The page rounds a half-star rating to even: a result rated
    [k + 0.5] is rendered with [k] stars when [k] is even and [k + 1] when
    it is odd, in the bar and in the explanation alike; so 1.5 and 2.5 both
    show two stars, 3.5 and 4.5 both four. *)
Theorem X17_half_star_ties (res : SimulationResult) (k : Z) :
  stars res = Fin (IZR k + 1 / 2) ->
  exists pg,
    render res = Done pg /\
    page_stars pg = (if Z.even k then k else (k + 1)%Z) /\
    page_bar pg = star_bar (if Z.even k then k else (k + 1)%Z) /\
    page_explanation pg
    = dict_get explanation (IZR (if Z.even k then k else (k + 1)%Z))
        ""%string.
Proof.
  intros Hs. unfold render. rewrite Hs. cbn [py_round_int].
  rewrite rint_half. eexists. split; [reflexivity |].
  cbn [page_stars page_bar page_explanation].
  split; [reflexivity | split; reflexivity].
Qed.

Lemma X17_half_star_ties_witness :
  exists pg,
    render result_half_star = Done pg /\
    page_stars pg = 2%Z /\
    page_bar pg = star_bar 2 /\
    page_explanation pg = dict_get explanation 2 ""%string.
Proof.
  apply (X17_half_star_ties result_half_star 2).
  cbn [stars result_half_star]. f_equal. lra.
Defined.
